(** * ghactions.toolkit._context: the GitHub context accessor

    A shallow embedding of [src/ghactions/toolkit/_context.py] and the
    properties of its accessors.

    Conventions of the embedding:
    - a Python [str] is a [string] (its UTF-8 bytes);
    - the values produced by [json.loads] are the inductive type [json];
      Python's [None] is [JNull], so [d.get(k)] of a missing key is [JNull];
    - [dict[str, str]] (the environment) is a [gmap string string];
    - a raised exception is the [Raise] case of [result];
    - the two [cached_property] accessors thread the instance through a
      small state-and-error monad [M]; the plain [property] accessors only
      read the instance and are functions of it;
    - what lives outside the module (the process environment, the file
      system, [pathlib.Path], [json.loads], [format]) is a [Runtime]. *)

From Stdlib Require Import String Ascii ZArith List Bool Floats.
From stdpp Require Import base option gmap strings.
Import ListNotations.

Local Open Scope string_scope.

(** ** Python values *)

Set Warnings "-register-all".

(** The result of [json.loads]: [None], [bool], [int], [float], [str],
    [list] and [dict] (keys in insertion order, each key once). *)
Inductive json : Type :=
| JNull
| JBool (b : bool)
| JInt (n : Z)
| JFloat (f : float)
| JStr (s : string)
| JArr (l : list json)
| JObj (d : list (string * json)).

(** [bool(v)]: the truth value Python's [if], [not] and [or] test. *)
Definition truthy (v : json) : bool :=
  match v with
  | JNull => false
  | JBool b => b
  | JInt n => negb (n =? 0)%Z
  | JFloat f => negb (PrimFloat.eqb f 0%float)
  | JStr s => negb (String.eqb s "")
  | JArr l => match l with [] => false | _ :: _ => true end
  | JObj d => match d with [] => false | _ :: _ => true end
  end.

(** Lookup of a key among the items of a [dict]. *)
Fixpoint dict_lookup (k : string) (d : list (string * json)) : option json :=
  match d with
  | [] => None
  | (k', v) :: d' => if String.eqb k k' then Some v else dict_lookup k d'
  end.

(** ** Exceptions and results *)

(** What [read_text] raises on a file that exists: the file may not be
    opened, or its bytes are not text in the default encoding. *)
Inductive read_error : Type :=
| PermissionError
| UnicodeDecodeError.

Inductive exn : Type :=
| AttributeError (attr : string)
| KeyError (key : string)
| TypeError
| FileNotFoundError
| JSONDecodeError
| ReadError (e : read_error).

(** The outcome of [p.read_text()] on a file. *)
Inductive read_outcome : Type :=
| Text (s : string)
| Unreadable (e : read_error).

Inductive result (A : Type) : Type :=
| Ok (a : A)
| Raise (e : exn).
Arguments Ok {A} a.
Arguments Raise {A} e.

(** [v.get(k)]: only a [dict] has the method; a missing key gives [None]. *)
Definition py_get (k : string) (v : json) : result json :=
  match v with
  | JObj d => Ok (default JNull (dict_lookup k d))
  | _ => Raise (AttributeError "get")
  end.

(** [v[k]] for a [str] key [k]: [KeyError] on a [dict] without the key,
    [TypeError] on every other value ([str] and [list] want integer
    indices, the rest is not subscriptable). *)
Definition py_getitem (k : string) (v : json) : result json :=
  match v with
  | JObj d => match dict_lookup k d with
              | Some x => Ok x
              | None => Raise (KeyError k)
              end
  | _ => Raise TypeError
  end.

(** ** [str] methods *)

(** [s.split(sep)] for a one-character separator: every occurrence
    splits, so the result has one more element than [s] has separators. *)
Fixpoint split (sep : ascii) (s : string) : list string :=
  match s with
  | EmptyString => [""]
  | String c s' =>
      if Ascii.eqb c sep then "" :: split sep s'
      else match split sep s' with
           | h :: t => String c h :: t
           | [] => [String c ""]
           end
  end.

Definition lower_ascii (c : ascii) : ascii :=
  let n := nat_of_ascii c in
  if (65 <=? n)%nat && (n <=? 90)%nat then ascii_of_nat (n + 32) else c.

(** [s.lower()]. On the UTF-8 bytes only [A]-[Z] change; no character
    outside ASCII lowercases to a letter of ["true"] or to ["1"], so
    membership in [("1", "true")] is the same as for Python's [str]. *)
Fixpoint lower (s : string) : string :=
  match s with
  | EmptyString => EmptyString
  | String c s' => String (lower_ascii c) (lower s')
  end.

Definition is_Some_b {A} (o : option A) : bool :=
  match o with Some _ => true | None => false end.

(** [s in ("1", "true")]. *)
Definition in_1_true (s : string) : bool :=
  String.eqb s "1" || String.eqb s "true".

(** Number of occurrences of a character. *)
Fixpoint count_char (c : ascii) (s : string) : nat :=
  match s with
  | EmptyString => 0
  | String c' s' => (if Ascii.eqb c' c then 1 else 0) + count_char c s'
  end.

(** ** The value tuples *)

Module GitHubContextIssue.
Record t : Type := mk { owner : json; repo : json; number : json }.
End GitHubContextIssue.

Module GitHubContextRepo.
Record t : Type := mk { owner : json; name : json }.

(** The constructor applied to an unpacked list of parts: the tuple
    takes exactly two positional arguments, any other number of them is
    a [TypeError]. *)
Definition of_parts (parts : list string) : result t :=
  match parts with
  | [o; n] => Ok (mk (JStr o) (JStr n))
  | _ => Raise TypeError
  end.
End GitHubContextRepo.

(** ** What the module takes from outside *)

Record Runtime : Type := {
  (** [pathlib.Path] objects and [Path(s)] for a [str]. *)
  path : Type;
  Path : string -> path;
  (** The file system: [p.is_file()], and what [p.read_text()] gives for
      a path that is a file (it is asked for no other path). *)
  is_file : path -> bool;
  read_text : path -> read_outcome;
  (** [json.loads]; [None] stands for [json.JSONDecodeError]. *)
  json_loads : string -> option json;
  (** [os.environ], the live process environment. *)
  os_environ : gmap string string;
  (** [format(v, "")] as an f-string field renders a value that is not a
      [str]. *)
  format_value : json -> string
}.

(** An f-string replacement field: a [str] is rendered as itself. *)
Definition fstring_field (rt : Runtime) (v : json) : string :=
  match v with
  | JStr s => s
  | _ => format_value rt v
  end.

(** ** The context object *)

(** An instance of [GithubContext]: its attributes, then the two entries
    that [cached_property] writes into the instance on first access
    ([None] while an entry is not there yet), then two ghost counters of
    how often the body of each derivation has been entered. *)
Record GithubContext {rt : Runtime} {Event : Type} : Type := {
  _event_path : option (path rt);
  env : gmap string string;
  event : Event;
  _payload : json;
  cached_issue : option (option GitHubContextIssue.t);
  cached_repository : option (option GitHubContextRepo.t);
  issue_calls : nat;
  repository_calls : nat
}.
Arguments GithubContext : clear implicits.

(** ** A state-and-error monad over the instance *)

Section Monad.
Context {rt : Runtime} {Event : Type}.
Local Abbreviation Ctx := (GithubContext rt Event).

Definition M (A : Type) : Type := Ctx -> result A * Ctx.
Local Abbreviation Py := M.

Definition ret {A} (a : A) : Py A := fun c => (Ok a, c).

Definition bind {A B} (m : Py A) (k : A -> Py B) : Py B :=
  fun c => match m c with
           | (Ok a, c') => k a c'
           | (Raise e, c') => (Raise e, c')
           end.

(** An operation that may raise and does not touch the instance. *)
Definition lift {A} (r : result A) : Py A := fun c => (r, c).

(** Reading an attribute of [self]. *)
Definition gets {A} (f : Ctx -> A) : Py A := fun c => (Ok (f c), c).
End Monad.
Arguments M : clear implicits.

Declare Scope py_scope.
Delimit Scope py_scope with py.
Notation "'do' x <- m ; k" := (bind m (fun x => k))
  (at level 10, x name, m at level 100, k at level 200) : py_scope.
Local Open Scope py_scope.

Section Accessors.
Context {rt : Runtime} {Event : Type}.
Local Abbreviation Ctx := (GithubContext rt Event).
Local Abbreviation Py := (M rt Event).

Definition set_cached_repository (v : option GitHubContextRepo.t) (c : Ctx) : Ctx :=
  {| _event_path := _event_path c; env := env c; event := event c;
     _payload := _payload c;
     cached_issue := cached_issue c;
     cached_repository := Some v;
     issue_calls := issue_calls c;
     repository_calls := repository_calls c |}.

Definition set_cached_issue (v : option GitHubContextIssue.t) (c : Ctx) : Ctx :=
  {| _event_path := _event_path c; env := env c; event := event c;
     _payload := _payload c;
     cached_issue := Some v;
     cached_repository := cached_repository c;
     issue_calls := issue_calls c;
     repository_calls := repository_calls c |}.

Definition enter_repository (c : Ctx) : Ctx :=
  {| _event_path := _event_path c; env := env c; event := event c;
     _payload := _payload c;
     cached_issue := cached_issue c;
     cached_repository := cached_repository c;
     issue_calls := issue_calls c;
     repository_calls := S (repository_calls c) |}.

Definition enter_issue (c : Ctx) : Ctx :=
  {| _event_path := _event_path c; env := env c; event := event c;
     _payload := _payload c;
     cached_issue := cached_issue c;
     cached_repository := cached_repository c;
     issue_calls := S (issue_calls c);
     repository_calls := repository_calls c |}.

(** [functools.cached_property]: return the entry of the instance when
    it is there; otherwise run the function and, when it returns, store
    the value in the instance. A function that raises stores nothing. *)
Definition cached_property {A}
    (entry : Ctx -> option A) (store : A -> Ctx -> Ctx)
    (enter : Ctx -> Ctx) (func : Py A) : Py A :=
  fun c =>
    match entry c with
    | Some v => (Ok v, c)
    | None =>
        match func (enter c) with
        | (Ok v, c') => (Ok v, store v c')
        | (Raise e, c') => (Raise e, c')
        end
    end.

(** *** Accessors that read one environment variable *)

(** [self.env.get(k)] is [env c !! k]; [self.env.get(k, d)]: *)
Definition env_get (k d : string) (c : Ctx) : string := default d (env c !! k).

Definition action (c : Ctx) : string := env_get "GITHUB_ACTION" "" c.

Definition action_path (c : Ctx) : option (path rt) :=
  match env c !! "GITHUB_ACTION_PATH" with
  | Some value => if negb (String.eqb value "") then Some (Path rt value) else None
  | None => None
  end.

Definition action_ref (c : Ctx) : option string := env c !! "GITHUB_ACTION_REF".
Definition action_repository (c : Ctx) : option string := env c !! "GITHUB_ACTION_REPOSITORY".
Definition actor (c : Ctx) : string := env_get "GITHUB_ACTOR" "" c.
Definition api_url (c : Ctx) : string := env_get "GITHUB_API_URL" "https://api.github.com" c.
Definition base_ref (c : Ctx) : option string := env c !! "GITHUB_BASE_REF".
Definition event_name (c : Ctx) : string := env_get "GITHUB_EVENT_NAME" "" c.

(** [value = self._event_path or self.env.get("GITHUB_EVENT_PATH")],
    then [Path(value) if value else None]. A [Path] object is always
    true and [Path] of a [Path] is that path; a [str] is true when it is
    not empty. *)
Definition event_path (c : Ctx) : option (path rt) :=
  match _event_path c with
  | Some p => Some p
  | None =>
      match env c !! "GITHUB_EVENT_PATH" with
      | Some value => if negb (String.eqb value "") then Some (Path rt value) else None
      | None => None
      end
  end.

Definition graphql_url (c : Ctx) : string :=
  env_get "GITHUB_GRAPHQL_URL" "https://api.github.com/graphql" c.
Definition head_ref (c : Ctx) : option string := env c !! "GITHUB_HEAD_REF".
Definition job (c : Ctx) : option string := env c !! "GITHUB_JOB".
Definition ref (c : Ctx) : string := env_get "GITHUB_REF" "" c.
Definition ref_name (c : Ctx) : string := env_get "GITHUB_REF_NAME" "" c.
Definition ref_protected (c : Ctx) : bool :=
  in_1_true (lower (env_get "GITHUB_REF_PROTECTED" "" c)).
Definition ref_type (c : Ctx) : string := env_get "GITHUB_REF_TYPE" "branch" c.
Definition server_url (c : Ctx) : string := env_get "GITHUB_SERVER_URL" "https://github.com" c.
Definition sha (c : Ctx) : string := env_get "GITHUB_SHA" "" c.
Definition token (c : Ctx) : string := env_get "GITHUB_TOKEN" "" c.
Definition triggering_actor (c : Ctx) : string := env_get "GITHUB_TRIGGERING_ACTOR" "" c.
Definition workflow (c : Ctx) : string := env_get "GITHUB_WORKFLOW" "" c.
Definition workflow_ref (c : Ctx) : string := env_get "GITHUB_WORKFLOW_REF" "" c.
Definition workflow_sha (c : Ctx) : string := env_get "GITHUB_WORKFLOW_SHA" "" c.

(** *** The derived accessors *)

(** [self.env[k]]. *)
Definition env_getitem (k : string) (c : Ctx) : result string :=
  match env c !! k with
  | Some v => Ok v
  | None => Raise (KeyError k)
  end.

(** [bool(self.env.get(k))]: set and not empty. *)
Definition env_truthy (k : string) (c : Ctx) : bool :=
  match env c !! k with
  | Some v => negb (String.eqb v "")
  | None => false
  end.

(** The body of [repository]. The first assignment to [repo] is dead. *)
Definition repository_func : Py (option GitHubContextRepo.t) :=
  do _repo <- gets (fun c => env c !! "GITHUB_REPOSITORY");
  do is_set <- gets (env_truthy "GITHUB_REPOSITORY");
  if is_set : bool then
    do value <- (fun c => (env_getitem "GITHUB_REPOSITORY" c, c));
    do r <- lift (GitHubContextRepo.of_parts (split "/" value));
    ret (Some r)
  else
    do payload <- gets _payload;
    do repo <- lift (py_get "repository" payload);
    if negb (truthy repo) then ret None
    else
      do o <- lift (py_getitem "owner" repo);
      do login <- lift (py_getitem "login" o);
      do n <- lift (py_getitem "name" repo);
      ret (Some (GitHubContextRepo.mk login n)).

Definition repository : Py (option GitHubContextRepo.t) :=
  cached_property cached_repository set_cached_repository enter_repository
    repository_func.

(** [r.owner] and [r.name] for [r = self.repository]: [None] has
    neither attribute. *)
Definition repo_owner (r : option GitHubContextRepo.t) : result json :=
  match r with
  | Some x => Ok (GitHubContextRepo.owner x)
  | None => Raise (AttributeError "owner")
  end.

Definition repo_name (r : option GitHubContextRepo.t) : result json :=
  match r with
  | Some x => Ok (GitHubContextRepo.name x)
  | None => Raise (AttributeError "name")
  end.

(** [a or b], with [b] evaluated only when [a] is false. *)
Definition py_or (a : json) (b : Py json) : Py json :=
  if truthy a then ret a else b.

(** The body of [issue]. [not number or not self.repository] reads
    [self.repository] only when [number] is true; a tuple of two or
    three fields is always true, so only [None] is false. *)
Definition issue_func : Py (option GitHubContextIssue.t) :=
  do top <- gets _payload;
  do i <- lift (py_get "issue" top);
  do payload <- py_or i
      (do top' <- gets _payload;
       do pr <- lift (py_get "pull_request" top');
       py_or pr (gets _payload));
  do number <- lift (py_get "number" payload);
  if negb (truthy number) then ret None
  else
    do r <- repository;
    if negb (is_Some_b r) then ret None
    else
      do r1 <- repository;
      do o <- lift (repo_owner r1);
      do r2 <- repository;
      do n <- lift (repo_name r2);
      ret (Some (GitHubContextIssue.mk o n number)).

Definition issue : Py (option GitHubContextIssue.t) :=
  cached_property cached_issue set_cached_issue enter_issue issue_func.

(** [repository_url]: the f-string is built only when [self.repository]
    is true, and then reads [self.server_url] and [self.repository]
    twice more. *)
Definition repository_url : Py (option string) :=
  do r <- repository;
  if is_Some_b r then
    do url <- gets server_url;
    do r1 <- repository;
    do o <- lift (repo_owner r1);
    do r2 <- repository;
    do n <- lift (repo_name r2);
    ret (Some (url +:+ "/" +:+ fstring_field rt o +:+ "/" +:+ fstring_field rt n))
  else ret None.
End Accessors.

(** *** The working directory *)

Section Workspace.
Context {rt : Runtime} {Event : Type}.

(** [workspace]: [Path(value) if value else Path.cwd()]. [Path.cwd()]
    asks the operating system for the working directory of the process
    at the moment of the call, and raises when that directory is gone;
    its outcome is the argument [getcwd]. It is computed only when the
    variable is unset or empty. *)
Definition workspace (getcwd : result (path rt)) (c : GithubContext rt Event)
    : result (path rt) :=
  match env c !! "GITHUB_WORKSPACE" with
  | Some value => if negb (String.eqb value "") then Ok (Path rt value) else getcwd
  | None => getcwd
  end.
End Workspace.

(** ** Construction *)

Section Construction.
Context (rt : Runtime).

(** [environ or os.environ.copy()]: an empty [dict] is false. *)
Definition env_or_os_environ (environ : option (gmap string string))
    : gmap string string :=
  match environ with
  | Some m => if decide (m = ∅) then os_environ rt else m
  | None => os_environ rt
  end.

(** The instance after the three attribute assignments of [__init__],
    before [_payload] is set; [event_path] reads only the first two. *)
Definition fresh {Event} (e : gmap string string) (ev : Event)
    (p : option (path rt)) (payload : json) : GithubContext rt Event :=
  {| _event_path := p; env := e; event := ev; _payload := payload;
     cached_issue := None; cached_repository := None;
     issue_calls := 0; repository_calls := 0 |}.

(** [GithubContext(environ=..., event=..., event_path=...)]. *)
Definition __init__ {Event} (environ : option (gmap string string))
    (ev : Event) (p : option (path rt)) : result (GithubContext rt Event) :=
  let e := env_or_os_environ environ in
  match event_path (fresh e ev p (JObj [])) with
  | Some f =>
      if is_file rt f then
        match read_text rt f with
        | Text text =>
            match json_loads rt text with
            | Some j => Ok (fresh e ev p j)
            | None => Raise JSONDecodeError
            end
        | Unreadable x => Raise (ReadError x)
        end
      else Ok (fresh e ev p (JObj []))
  | None => Ok (fresh e ev p (JObj []))
  end.

(** The [event_path] argument of [from_file]: [Path | str | None]. *)
Inductive path_arg : Type :=
| ArgPath (p : path rt)
| ArgStr (s : string).

(** [GithubContext.from_file(environ=..., event_path=...)]. An argument
    that is [None] or the empty [str] is replaced by
    [os.getenv("GITHUB_EVENT_PATH", "")], read from the process
    environment. *)
Definition resolve_event_path (a : option path_arg) : path rt :=
  match a with
  | Some (ArgPath p) => p
  | Some (ArgStr s) =>
      if negb (String.eqb s "") then Path rt s
      else Path rt (default "" (os_environ rt !! "GITHUB_EVENT_PATH"))
  | None => Path rt (default "" (os_environ rt !! "GITHUB_EVENT_PATH"))
  end.

Definition from_file (environ : option (gmap string string))
    (a : option path_arg) : result (GithubContext rt json) :=
  let p := resolve_event_path a in
  if negb (is_file rt p) then Raise FileNotFoundError
  else
    match read_text rt p with
    | Text text =>
        match json_loads rt text with
        | Some j => __init__ environ j (Some p)
        | None => Raise JSONDecodeError
        end
    | Unreadable x => Raise (ReadError x)
    end.
End Construction.

(** ** Reading an instance again and again *)

(** What a client can do to an instance between two reads: read either
    memoized accessor, or change the environment mapping and the payload
    behind the accessor's back (through an alias of the [dict] given to
    the constructor, or by assigning the attributes). *)
Inductive access : Type :=
| ReadRepository
| ReadIssue
| Mutate (e : gmap string string) (payload : json).

Inductive observation : Type :=
| SawRepository (r : result (option GitHubContextRepo.t))
| SawIssue (r : result (option GitHubContextIssue.t))
| SawNothing.

Section Reads.
Context {rt : Runtime} {Event : Type}.
Local Abbreviation Ctx := (GithubContext rt Event).

Definition mutate (e : gmap string string) (payload : json) (c : Ctx) : Ctx :=
  {| _event_path := _event_path c; env := e; event := event c;
     _payload := payload;
     cached_issue := cached_issue c;
     cached_repository := cached_repository c;
     issue_calls := issue_calls c;
     repository_calls := repository_calls c |}.

Definition step (a : access) (c : Ctx) : observation * Ctx :=
  match a with
  | ReadRepository => let (r, c') := repository c in (SawRepository r, c')
  | ReadIssue => let (r, c') := issue c in (SawIssue r, c')
  | Mutate e payload => (SawNothing, mutate e payload c)
  end.

Fixpoint run (l : list access) (c : Ctx) : list observation * Ctx :=
  match l with
  | [] => ([], c)
  | a :: l' =>
      let (o, c') := step a c in
      let (os, c'') := run l' c' in
      (o :: os, c'')
  end.
End Reads.

(** ** What the derivations compute *)

(** What the body of [repository] computes from the payload, when the
    environment variable does not decide. *)
Definition repository_from_payload (payload : json)
    : result (option GitHubContextRepo.t) :=
  match py_get "repository" payload with
  | Raise x => Raise x
  | Ok repo =>
      if negb (truthy repo) then Ok None
      else
        match py_getitem "owner" repo with
        | Raise x => Raise x
        | Ok o =>
            match py_getitem "login" o with
            | Raise x => Raise x
            | Ok login =>
                match py_getitem "name" repo with
                | Raise x => Raise x
                | Ok n => Ok (Some (GitHubContextRepo.mk login n))
                end
            end
        end
  end.

(** What the body of [repository] computes from the environment and the
    payload it reads. *)
Definition repository_value (e : gmap string string) (payload : json)
    : result (option GitHubContextRepo.t) :=
  match e !! "GITHUB_REPOSITORY" with
  | Some v =>
      if negb (String.eqb v "") then
        match GitHubContextRepo.of_parts (split "/" v) with
        | Ok r => Ok (Some r)
        | Raise x => Raise x
        end
      else repository_from_payload payload
  | None => repository_from_payload payload
  end.

(** The candidate the code selects: a field counts only when its value
    is true (present, not [null], not empty, not zero). *)
Definition candidate (d : list (string * json)) : json :=
  let i := default JNull (dict_lookup "issue" d) in
  if truthy i then i
  else
    let pr := default JNull (dict_lookup "pull_request" d) in
    if truthy pr then pr else JObj d.

(** ** Vocabulary of the statements *)

(** An accessor that passes one environment variable through: [dflt]
    when the variable is unset, [conv v] when it is set to [v]. *)
Definition passthrough (rt : Runtime) (Event : Type) {A : Type}
    (acc : GithubContext rt Event -> A) (var : string)
    (dflt : A) (conv : string -> A) : Prop :=
  forall c : GithubContext rt Event,
    (env c !! var = None -> acc c = dflt) /\
    (forall v, env c !! var = Some v -> acc c = conv v).

(** The environment the accessor will hold and the process environment
    give [GITHUB_EVENT_PATH] the same value. *)
Definition same_event_path_var (rt : Runtime)
    (environ : option (gmap string string)) : Prop :=
  env_or_os_environ rt environ !! "GITHUB_EVENT_PATH"
  = os_environ rt !! "GITHUB_EVENT_PATH".

(** ** The derivations as the specification words them *)

(** The text before and the text after the first occurrence of [sep]. *)
Fixpoint split_first (sep : ascii) (s : string) : string * string :=
  match s with
  | EmptyString => ("", "")
  | String c s' =>
      if Ascii.eqb c sep then ("", s')
      else let (a, b) := split_first sep s' in (String c a, b)
  end.

(** Specification, repository: the environment variable when it is set
    and not empty, split at the first slash; else the payload's
    [repository] object when it has [owner.login] and [name]; else
    absent. *)
Definition spec_repository (e : gmap string string) (payload : json)
    : option GitHubContextRepo.t :=
  let from_payload :=
    match payload with
    | JObj d =>
        match dict_lookup "repository" d with
        | Some (JObj r) =>
            match dict_lookup "owner" r, dict_lookup "name" r with
            | Some (JObj o), Some n =>
                match dict_lookup "login" o with
                | Some l => Some (GitHubContextRepo.mk l n)
                | None => None
                end
            | _, _ => None
            end
        | _ => None
        end
    | _ => None
    end in
  match e !! "GITHUB_REPOSITORY" with
  | Some v =>
      if String.eqb v "" then from_payload
      else let (o, n) := split_first "/" v in
           Some (GitHubContextRepo.mk (JStr o) (JStr n))
  | None => from_payload
  end.

(** Specification, issue: the candidate is the [issue] field if present,
    else the [pull_request] field if present, else the payload. *)
Definition spec_candidate (d : list (string * json)) : json :=
  match dict_lookup "issue" d with
  | Some v => v
  | None =>
      match dict_lookup "pull_request" d with
      | Some v => v
      | None => JObj d
      end
  end.

Definition spec_issue (r : option GitHubContextRepo.t) (d : list (string * json))
    : option GitHubContextIssue.t :=
  match spec_candidate d, r with
  | JObj cd, Some x =>
      match dict_lookup "number" cd with
      | Some n =>
          if truthy n
          then Some (GitHubContextIssue.mk (GitHubContextRepo.owner x)
                       (GitHubContextRepo.name x) n)
          else None
      | None => None
      end
  | _, _ => None
  end.

(** An [event_path] argument of [from_file] that is used as given: a
    path, or a text that is not empty. *)
Definition explicit_arg {rt : Runtime} (a : option (path_arg rt)) : bool :=
  match a with
  | Some (ArgPath _ _) => true
  | Some (ArgStr _ s) => negb (String.eqb s "")
  | None => false
  end.

(** Specification, [from_file]: the path is the explicit argument when
    one is given, else [GITHUB_EVENT_PATH] of the environment [e]. *)
Definition spec_from_file_path (rt : Runtime) (e : gmap string string)
    (a : option (path_arg rt)) : path rt :=
  match a with
  | Some (ArgPath _ q) => q
  | Some (ArgStr _ s) =>
      if String.eqb s "" then Path rt (default "" (e !! "GITHUB_EVENT_PATH"))
      else Path rt s
  | None => Path rt (default "" (e !! "GITHUB_EVENT_PATH"))
  end.

(** Specification, [from_file]: no payload path can be resolved when
    neither the explicit argument nor [GITHUB_EVENT_PATH] yields a path
    to an existing file. *)
Definition spec_no_payload_path (rt : Runtime) (e : gmap string string)
    (a : option (path_arg rt)) : bool :=
  let explicit :=
    match a with
    | Some (ArgPath _ q) => is_file rt q
    | Some (ArgStr _ s) => negb (String.eqb s "") && is_file rt (Path rt s)
    | None => false
    end in
  let variable :=
    match e !! "GITHUB_EVENT_PATH" with
    | Some v => is_file rt (Path rt v)
    | None => false
    end in
  negb explicit && negb variable.

(** ** A small world to run the accessor in *)

Module Fixture.
Definition dq : string := String (ascii_of_nat 34) EmptyString.

(** The text of a JSON object with the one member [name], [foo]. *)
Definition event_text : string :=
  "{" +:+ dq +:+ "name" +:+ dq +:+ ":" +:+ dq +:+ "foo" +:+ dq +:+ "}".

Definition event_value : json := JObj [("name", JStr "foo")].

(** Paths are their text. Three files exist: [event.json] holds
    [event_text], [broken.json] holds an unfinished object and
    [locked.json] may not be opened. [json.loads] is given on the texts
    of this world. *)
Definition rt : Runtime := {|
  path := string;
  Path := fun s => s;
  is_file := fun p =>
    String.eqb p "event.json" || String.eqb p "broken.json"
    || String.eqb p "locked.json";
  read_text := fun p =>
    if String.eqb p "event.json" then Text event_text
    else if String.eqb p "broken.json" then Text "{"
    else Unreadable PermissionError;
  json_loads := fun s =>
    if String.eqb s event_text then Some event_value else None;
  os_environ := {[ "GITHUB_EVENT_PATH" := "event.json" ]};
  format_value := fun v =>
    match v with
    | JNull => "None"
    | JBool true => "True"
    | JBool false => "False"
    | _ => "<object>"
    end
|}.

(** An instance as the constructor leaves it, on a given environment
    and payload. *)
Definition ctx (e : gmap string string) (payload : json) : GithubContext rt unit :=
  fresh rt e tt None payload.

Definition env_acme : gmap string string :=
  {[ "GITHUB_REPOSITORY" := "acme/widgets" ]}.

Definition payload_other : json :=
  JObj [("repository",
         JObj [("owner", JObj [("login", JStr "other")]); ("name", JStr "thing")])].

(** [GITHUB_REPOSITORY] with two slashes, and an empty payload. *)
Definition ctx_two_slashes : GithubContext rt unit :=
  ctx {[ "GITHUB_REPOSITORY" := "a/b/c" ]} (JObj []).

(** The environment names one repository, the payload another. *)
Definition ctx_acme : GithubContext rt unit := ctx env_acme payload_other.

(** No [GITHUB_REPOSITORY]; the payload names a repository. *)
Definition ctx_payload_only : GithubContext rt unit := ctx ∅ payload_other.

Definition ctx_empty : GithubContext rt unit := ctx ∅ (JObj []).

Definition env_user : gmap string string :=
  {[ "GITHUB_REPOSITORY" := "user/repo" ]}.

(** An [issue] member that is present and empty, beside a pull request
    with a number. *)
Definition payload_empty_issue : list (string * json) :=
  [("issue", JObj []); ("pull_request", JObj [("number", JStr "9")])].

Definition ctx_empty_issue : GithubContext rt unit :=
  ctx env_user (JObj payload_empty_issue).

(** A number that is a JSON number. *)
Definition ctx_int_number : GithubContext rt unit :=
  ctx env_user (JObj [("issue", JObj [("number", JInt 9)])]).

(** A number, and a [repository] object without its [owner]. *)
Definition ctx_no_owner : GithubContext rt unit :=
  ctx ∅ (JObj [("number", JStr "9"); ("repository", JObj [("name", JStr "x")])]).

Definition ctx_no_login : GithubContext rt unit :=
  ctx ∅ (JObj [("repository", JObj [("owner", JObj []); ("name", JStr "x")])]).

Definition ctx_no_name : GithubContext rt unit :=
  ctx ∅ (JObj [("repository", JObj [("owner", JObj [("login", JStr "u")])])]).

(** A number and no repository anywhere. *)
Definition ctx_number_only : GithubContext rt unit :=
  ctx ∅ (JObj [("number", JStr "9")]).

(** [GITHUB_REPOSITORY] without a slash, and a payload with a number. *)
Definition ctx_no_slash_number : GithubContext rt unit :=
  ctx {[ "GITHUB_REPOSITORY" := "acme" ]} (JObj [("number", JStr "9")]).

(** [GITHUB_ACTION_PATH] set to the empty text. *)
Definition ctx_empty_action_path : GithubContext rt unit :=
  ctx {[ "GITHUB_ACTION_PATH" := "" ]} (JObj []).

Definition env_protected : gmap string string :=
  {[ "GITHUB_REF_PROTECTED" := "True" ]}.

Definition ctx_protected : GithubContext rt unit := ctx env_protected (JObj []).

(** The process environment of this world points at [event.json]; this
    snapshot points at the broken file. *)
Definition env_broken : gmap string string :=
  {[ "GITHUB_EVENT_PATH" := "broken.json" ]}.

Definition env_missing : gmap string string :=
  {[ "GITHUB_EVENT_PATH" := "missing.json" ]}.

Definition ctx_user : GithubContext rt unit := ctx env_user (JObj []).

Definition ctx_no_slash : GithubContext rt unit :=
  ctx {[ "GITHUB_REPOSITORY" := "acme" ]} (JObj []).

(** A payload file that holds a JSON array. *)
Definition ctx_array : GithubContext rt unit := ctx ∅ (JArr [JInt 1]).

(** The environment decides, over a payload that is not an object. *)
Definition ctx_acme_array : GithubContext rt unit := ctx env_acme (JArr [JInt 1]).

(** An [issue] member that is a number. *)
Definition ctx_issue_scalar : GithubContext rt unit :=
  ctx env_user (JObj [("issue", JInt 7)]).

Definition env_locked : gmap string string :=
  {[ "GITHUB_EVENT_PATH" := "locked.json" ]}.

Definition env_empty_path : gmap string string :=
  {[ "GITHUB_EVENT_PATH" := "" ]}.

Definition env_workspace : gmap string string :=
  {[ "GITHUB_WORKSPACE" := "/work" ]}.

Definition env_server : gmap string string :=
  {[ "GITHUB_SERVER_URL" := "https://ghe.example" ]}.
End Fixture.

(** * Properties *)

(** ** [str.split] *)

Lemma split_length (sep : ascii) (s : string) :
  length (split sep s) = S (count_char sep s).
Proof.
  induction s as [|c s IH]; cbn; [reflexivity|].
  destruct (Ascii.eqb c sep); cbn; [now rewrite IH|].
  destruct (split sep s) as [|h t]; cbn in *; [discriminate|exact IH].
Qed.

Lemma split_no_sep (sep : ascii) (s : string) :
  count_char sep s = 0 -> split sep s = [s].
Proof.
  induction s as [|c s IH]; cbn; [reflexivity|].
  destruct (Ascii.eqb c sep); cbn; [discriminate|].
  intros H. now rewrite (IH H).
Qed.

Lemma append_nil (b : string) : EmptyString +:+ b = b.
Proof. reflexivity. Qed.

Lemma append_cons (c : ascii) (a b : string) :
  String c a +:+ b = String c (a +:+ b).
Proof. reflexivity. Qed.

Lemma split_app (sep : ascii) (a b : string) :
  count_char sep a = 0 -> split sep (a +:+ String sep b) = a :: split sep b.
Proof.
  induction a as [|c a IH].
  - intros _. rewrite append_nil. cbn. now rewrite Ascii.eqb_refl.
  - rewrite append_cons. cbn.
    destruct (Ascii.eqb c sep); cbn; [discriminate|].
    intros H. now rewrite (IH H).
Qed.

Lemma split_one_sep (sep : ascii) (a b : string) :
  count_char sep a = 0 -> count_char sep b = 0 ->
  split sep (a +:+ String sep b) = [a; b].
Proof.
  intros Ha Hb. now rewrite (split_app _ _ _ Ha), (split_no_sep _ _ Hb).
Qed.

(** [of_parts] succeeds on exactly two parts. *)
Lemma of_parts_split_other (v : string) :
  count_char "/" v <> 1 ->
  GitHubContextRepo.of_parts (split "/" v) = Raise TypeError.
Proof.
  intros H. pose proof (split_length "/" v) as L.
  destruct (split "/" v) as [|a [|b [|x l]]]; cbn in *; try reflexivity.
  exfalso. apply H. congruence.
Qed.

(** ** The memoized accessors, unfolded *)

Section Unfold.
Context {rt : Runtime} {Event : Type}.
Implicit Types c : GithubContext rt Event.

Lemma repository_func_eq c :
  repository_func c = (repository_value (env c) (_payload c), c).
Proof.
  assert (forall c0 : GithubContext rt Event,
    (do payload <- gets _payload;
     do repo <- lift (py_get "repository" payload);
     if negb (truthy repo) then ret None
     else
       do o <- lift (py_getitem "owner" repo);
       do login <- lift (py_getitem "login" o);
       do n <- lift (py_getitem "name" repo);
       ret (Some (GitHubContextRepo.mk login n)))%py c0
    = (repository_from_payload (_payload c0), c0)) as Hpayload.
  { intros c0. unfold repository_from_payload, bind, gets, lift, ret.
    destruct (py_get "repository" (_payload c0)) as [repo|]; [|reflexivity].
    destruct (negb (truthy repo)); [reflexivity|].
    destruct (py_getitem "owner" repo) as [o|]; [|reflexivity].
    destruct (py_getitem "login" o); [|reflexivity].
    destruct (py_getitem "name" repo); reflexivity. }
  unfold repository_func, repository_value.
  unfold bind at 1 2. unfold gets at 1 2. unfold env_truthy.
  destruct (env c !! "GITHUB_REPOSITORY") as [v|] eqn:E; [|apply Hpayload].
  destruct (negb (String.eqb v "")); [|apply Hpayload].
  unfold bind, lift, ret, env_getitem. rewrite E.
  destruct (GitHubContextRepo.of_parts _); reflexivity.
Qed.

Lemma repository_eq c :
  repository c =
    match cached_repository c with
    | Some v => (Ok v, c)
    | None =>
        match repository_value (env c) (_payload c) with
        | Ok v => (Ok v, set_cached_repository v (enter_repository c))
        | Raise x => (Raise x, enter_repository c)
        end
    end.
Proof.
  unfold repository, cached_property.
  destruct (cached_repository c); [reflexivity|].
  rewrite repository_func_eq. cbn.
  destruct (repository_value _ _); reflexivity.
Qed.

Lemma repository_hit c v :
  cached_repository c = Some v -> repository c = (Ok v, c).
Proof. intros H. rewrite repository_eq, H. reflexivity. Qed.

(** A read that returns leaves its value in the instance. *)
Lemma repository_stores c v c' :
  repository c = (Ok v, c') -> cached_repository c' = Some v.
Proof.
  rewrite repository_eq.
  destruct (cached_repository c) as [w|] eqn:E.
  - intros [= <- <-]. exact E.
  - destruct (repository_value _ _); intros [= <- <-]. reflexivity.
Qed.

(** A read of [repository] changes nothing but its own entry and
    counter. *)
Lemma repository_frame c r c' :
  repository c = (r, c') ->
  env c' = env c /\ _payload c' = _payload c /\ event c' = event c /\
  _event_path c' = _event_path c /\
  cached_issue c' = cached_issue c /\ issue_calls c' = issue_calls c.
Proof.
  rewrite repository_eq.
  destruct (cached_repository c).
  - intros [= <- <-]. repeat split.
  - destruct (repository_value _ _); intros [= <- <-]; repeat split.
Qed.

Lemma repository_enter_issue c :
  repository (enter_issue c) =
    let (r, c') := repository c in (r, enter_issue c').
Proof.
  rewrite !repository_eq. cbn [cached_repository enter_issue env _payload].
  destruct (cached_repository c); [reflexivity|].
  destruct (repository_value _ _); reflexivity.
Qed.

(** The part of [issue] after the candidate is chosen, at instance [c]. *)
Ltac issue_tail c :=
  match goal with
  | |- context [py_get "number" ?payload] =>
      destruct (py_get "number" payload) as [number|]; [|reflexivity];
      destruct (negb (truthy number)); [reflexivity|];
      let R := fresh "R" in
      destruct (repository c) as [[[r|]|x] c'] eqn:R; try reflexivity;
      cbn [is_Some_b negb];
      rewrite (repository_hit c' _ (repository_stores _ _ _ R));
      cbn [repo_owner];
      rewrite (repository_hit c' _ (repository_stores _ _ _ R));
      reflexivity
  end.

(** The body of [issue] on a payload that is an object. The second and
    third read of [self.repository] hit the entry the first one left. *)
Lemma issue_func_eq c d :
  _payload c = JObj d ->
  issue_func c =
    match py_get "number" (candidate d) with
    | Raise x => (Raise x, c)
    | Ok number =>
        if negb (truthy number) then (Ok None, c)
        else
          match repository c with
          | (Ok (Some r), c') =>
              (Ok (Some (GitHubContextIssue.mk (GitHubContextRepo.owner r)
                           (GitHubContextRepo.name r) number)), c')
          | (Ok None, c') => (Ok None, c')
          | (Raise x, c') => (Raise x, c')
          end
    end.
Proof.
  intros Hp. unfold issue_func, py_or, bind, gets, lift, ret, candidate.
  rewrite Hp. cbn [py_get].
  set (i := default JNull (dict_lookup "issue" d)).
  set (pr := default JNull (dict_lookup "pull_request" d)).
  destruct (truthy i);
    [|rewrite Hp; cbn [py_get]; fold pr; destruct (truthy pr); [|rewrite Hp]];
    issue_tail c.
Qed.

Lemma issue_eq c :
  issue c =
    match cached_issue c with
    | Some v => (Ok v, c)
    | None =>
        match issue_func (enter_issue c) with
        | (Ok v, c') => (Ok v, set_cached_issue v c')
        | (Raise x, c') => (Raise x, c')
        end
    end.
Proof. reflexivity. Qed.

Lemma issue_hit c v : cached_issue c = Some v -> issue c = (Ok v, c).
Proof. intros H. rewrite issue_eq, H. reflexivity. Qed.

(** What a first read of [issue] returns on an object payload. *)
Lemma issue_result c d :
  cached_issue c = None -> _payload c = JObj d ->
  fst (issue c) =
    match py_get "number" (candidate d) with
    | Raise x => Raise x
    | Ok number =>
        if negb (truthy number) then Ok None
        else
          match fst (repository c) with
          | Ok (Some r) =>
              Ok (Some (GitHubContextIssue.mk (GitHubContextRepo.owner r)
                          (GitHubContextRepo.name r) number))
          | Ok None => Ok None
          | Raise x => Raise x
          end
    end.
Proof.
  intros Hc Hp. rewrite issue_eq, Hc.
  rewrite (issue_func_eq (enter_issue c) d Hp).
  destruct (py_get "number" (candidate d)) as [number|]; [|reflexivity].
  destruct (negb (truthy number)); [reflexivity|].
  rewrite repository_enter_issue.
  destruct (repository c) as [[[r|]|x] c']; reflexivity.
Qed.

(** The same part of [issue], for the instance it ends in. *)
Ltac issue_tail_state c :=
  match goal with
  | |- context [py_get "number" ?payload] =>
      destruct (py_get "number" payload) as [number|];
        [|intros [= _ <-]; now left];
      destruct (negb (truthy number)); [intros [= _ <-]; now left|];
      let R := fresh "R" in
      destruct (repository c) as [[[r0|]|x] c1] eqn:R;
        cbn [snd is_Some_b negb];
        try (intros [= _ <-]; now right);
      rewrite (repository_hit c1 _ (repository_stores _ _ _ R));
      cbn [repo_owner];
      rewrite (repository_hit c1 _ (repository_stores _ _ _ R));
      cbn [repo_name];
      intros [= _ <-]; now right
  end.

(** The body of [issue] ends in the instance it started in, or in the
    instance its first read of [repository] left. *)
Lemma issue_func_state c r c' :
  issue_func c = (r, c') -> c' = c \/ c' = snd (repository c).
Proof.
  unfold issue_func, py_or, bind, gets, lift, ret.
  destruct (py_get "issue" (_payload c)) as [i|]; [|intros [= _ <-]; now left].
  destruct (truthy i); [issue_tail_state c|].
  destruct (py_get "pull_request" (_payload c)) as [pr|]; [|intros [= _ <-]; now left].
  destruct (truthy pr); issue_tail_state c.
Qed.

Lemma repository_result_unset c :
  cached_repository c = None ->
  env c !! "GITHUB_REPOSITORY" = None \/ env c !! "GITHUB_REPOSITORY" = Some "" ->
  fst (repository c) = repository_from_payload (_payload c).
Proof.
  intros H He. rewrite repository_eq, H. unfold repository_value.
  destruct He as [-> | ->]; cbn [String.eqb negb];
    destruct (repository_from_payload _); reflexivity.
Qed.

Lemma repository_result c :
  cached_repository c = None ->
  fst (repository c) = repository_value (env c) (_payload c).
Proof.
  intros H. rewrite repository_eq, H.
  destruct (repository_value _ _); reflexivity.
Qed.
End Unfold.

(** ** The repository accessor *)

Lemma slash_append (n : string) : "/" +:+ n = String "/" n.
Proof. reflexivity. Qed.

(** C1, as stated, fails: with [GITHUB_REPOSITORY] set to [a/b/c] the
    specification's split at the first slash gives the pair [a], [b/c],
    while the accessor raises [TypeError], because [split] cuts at every
    slash and the tuple takes exactly two parts. *)
Lemma repository_first_slash_counterexample :
  spec_repository (env Fixture.ctx_two_slashes) (_payload Fixture.ctx_two_slashes)
    = Some (GitHubContextRepo.mk (JStr "a") (JStr "b/c")) /\
  fst (repository Fixture.ctx_two_slashes) = Raise TypeError /\
  fst (repository Fixture.ctx_two_slashes)
    <> Ok (spec_repository (env Fixture.ctx_two_slashes)
             (_payload Fixture.ctx_two_slashes)).
Proof.
  split; [|split]; [vm_compute; reflexivity ..|].
  vm_compute. discriminate.
Qed.

(** C1 (amended). On an instance that has not memoized a repository yet:
    when [GITHUB_REPOSITORY] is set to a text with exactly one slash, the
    accessor returns the texts before and after it as owner and name,
    whatever the payload holds; when it is set, not empty, and the number
    of slashes is not one, the accessor raises [TypeError]; when it is
    unset or empty and the payload is an object, a [repository] member
    that is missing or false gives absent, and a [repository] object
    whose [owner] is an object with [login] and which has [name] gives the
    reference built from those two values. *)
Theorem repository_derivation {rt : Runtime} {Event : Type}
    (c : GithubContext rt Event) :
  cached_repository c = None ->
  (forall o n,
      env c !! "GITHUB_REPOSITORY" = Some (o +:+ "/" +:+ n) ->
      count_char "/" o = 0 -> count_char "/" n = 0 ->
      fst (repository c) = Ok (Some (GitHubContextRepo.mk (JStr o) (JStr n)))) /\
  (forall v,
      env c !! "GITHUB_REPOSITORY" = Some v -> v <> "" ->
      count_char "/" v <> 1 ->
      fst (repository c) = Raise TypeError) /\
  (forall d,
      env c !! "GITHUB_REPOSITORY" = None \/ env c !! "GITHUB_REPOSITORY" = Some "" ->
      _payload c = JObj d ->
      (truthy (default JNull (dict_lookup "repository" d)) = false ->
       fst (repository c) = Ok None) /\
      (forall r o login n,
          dict_lookup "repository" d = Some (JObj r) ->
          dict_lookup "owner" r = Some (JObj o) ->
          dict_lookup "login" o = Some login ->
          dict_lookup "name" r = Some n ->
          fst (repository c) = Ok (Some (GitHubContextRepo.mk login n)))).
Proof.
  intros Hc. split; [|split].
  - intros o n He Ho Hn.
    rewrite (repository_result c Hc). unfold repository_value. rewrite He.
    assert (o +:+ "/" +:+ n <> "") as Hne.
    { destruct o; rewrite ?append_nil, ?append_cons; discriminate. }
    apply String.eqb_neq in Hne. rewrite Hne. cbn [negb].
    rewrite slash_append, (split_one_sep _ _ _ Ho Hn). reflexivity.
  - intros v He Hv Hn.
    rewrite (repository_result c Hc). unfold repository_value. rewrite He.
    apply String.eqb_neq in Hv. rewrite Hv. cbn [negb].
    rewrite (of_parts_split_other _ Hn). reflexivity.
  - intros d He Hp. rewrite (repository_result_unset c Hc He), Hp.
    unfold repository_from_payload. cbn [py_get].
    split.
    + intros Hf. rewrite Hf. reflexivity.
    + intros r o login n Hrepo Ho Hl Hn. rewrite Hrepo. cbn [default from_option id].
      assert (truthy (JObj r) = true) as ->.
      { destruct r; [discriminate|reflexivity]. }
      cbn [negb py_getitem]. rewrite Ho. cbn [py_getitem].
      rewrite Hl, Hn. reflexivity.
Qed.

Lemma repository_derivation_witness :
  fst (repository Fixture.ctx_acme)
    = Ok (Some (GitHubContextRepo.mk (JStr "acme") (JStr "widgets"))) /\
  fst (repository Fixture.ctx_no_slash) = Raise TypeError /\
  fst (repository Fixture.ctx_empty) = Ok None /\
  fst (repository Fixture.ctx_payload_only)
    = Ok (Some (GitHubContextRepo.mk (JStr "other") (JStr "thing"))).
Proof.
  split; [|split; [|split]].
  - apply (proj1 (repository_derivation Fixture.ctx_acme eq_refl) "acme" "widgets");
      vm_compute; reflexivity.
  - apply (proj1 (proj2 (repository_derivation Fixture.ctx_no_slash eq_refl)) "acme").
    + vm_compute; reflexivity.
    + discriminate.
    + vm_compute. discriminate.
  - apply (proj2 (proj2 (repository_derivation Fixture.ctx_empty eq_refl)) []).
    + left. vm_compute; reflexivity.
    + reflexivity.
    + reflexivity.
  - eapply (proj2 (proj2 (repository_derivation Fixture.ctx_payload_only eq_refl)) _).
    + left. vm_compute; reflexivity.
    + reflexivity.
    + reflexivity.
    + reflexivity.
    + reflexivity.
    + reflexivity.
Defined.

(** ** The issue accessor *)

(** C2, as stated, fails: with an [issue] member that is present and
    empty, the specification takes it as the candidate, finds no number
    and answers absent; the accessor passes over a member whose value is
    false and takes the number of [pull_request]. *)
Lemma issue_present_counterexample :
  dict_lookup "issue" Fixture.payload_empty_issue = Some (JObj []) /\
  fst (repository Fixture.ctx_empty_issue)
    = Ok (Some (GitHubContextRepo.mk (JStr "user") (JStr "repo"))) /\
  spec_issue (Some (GitHubContextRepo.mk (JStr "user") (JStr "repo")))
    Fixture.payload_empty_issue = None /\
  fst (issue Fixture.ctx_empty_issue)
    = Ok (Some (GitHubContextIssue.mk (JStr "user") (JStr "repo") (JStr "9"))) /\
  fst (issue Fixture.ctx_empty_issue)
    <> Ok (spec_issue (Some (GitHubContextRepo.mk (JStr "user") (JStr "repo")))
             Fixture.payload_empty_issue).
Proof.
  repeat split; try (vm_compute; reflexivity).
  vm_compute. discriminate.
Qed.

(** C2 (amended). On an instance that has not memoized an issue yet and
    whose payload is an object, let the candidate be the [issue] member
    when its value is true, else the [pull_request] member when its value
    is true, else the payload itself. When the candidate is an object
    and [number] is what [get] reads from it: a number that is missing or
    false gives absent; a true number with an absent repository gives
    absent; a true number with a repository gives the issue made of the
    repository's owner and name and that number. *)
Theorem issue_derivation {rt : Runtime} {Event : Type}
    (c : GithubContext rt Event) (d cd : list (string * json)) :
  cached_issue c = None ->
  _payload c = JObj d ->
  candidate d = JObj cd ->
  (truthy (default JNull (dict_lookup "number" cd)) = false ->
   fst (issue c) = Ok None) /\
  (truthy (default JNull (dict_lookup "number" cd)) = true ->
   fst (repository c) = Ok None ->
   fst (issue c) = Ok None) /\
  (forall r,
      truthy (default JNull (dict_lookup "number" cd)) = true ->
      fst (repository c) = Ok (Some r) ->
      fst (issue c)
        = Ok (Some (GitHubContextIssue.mk (GitHubContextRepo.owner r)
                      (GitHubContextRepo.name r)
                      (default JNull (dict_lookup "number" cd))))).
Proof.
  intros Hc Hp Hcd. rewrite (issue_result c d Hc Hp), Hcd. cbn [py_get].
  split; [|split].
  - intros ->. reflexivity.
  - intros -> ->. reflexivity.
  - intros r -> ->. reflexivity.
Qed.

Lemma issue_derivation_witness :
  fst (issue Fixture.ctx_empty) = Ok None /\
  fst (issue Fixture.ctx_number_only) = Ok None /\
  fst (issue Fixture.ctx_empty_issue)
    = Ok (Some (GitHubContextIssue.mk (JStr "user") (JStr "repo") (JStr "9"))).
Proof.
  split; [|split].
  - apply (proj1 (issue_derivation Fixture.ctx_empty [] []
                    eq_refl eq_refl eq_refl)).
    reflexivity.
  - apply (proj1 (proj2 (issue_derivation Fixture.ctx_number_only
                           [("number", JStr "9")] [("number", JStr "9")]
                           eq_refl eq_refl eq_refl)));
      vm_compute; reflexivity.
  - apply (proj2 (proj2 (issue_derivation Fixture.ctx_empty_issue
                           Fixture.payload_empty_issue [("number", JStr "9")]
                           eq_refl eq_refl eq_refl))
             (GitHubContextRepo.mk (JStr "user") (JStr "repo")));
      vm_compute; reflexivity.
Defined.

(** C10. The number of the issue the accessor returns is the value of
    the candidate's [number] member as the payload holds it, with no
    conversion to [str]: whenever a first read returns an issue, its
    number is that member; and a JSON integer there (other than zero,
    which is false) comes back as that integer. *)
Theorem issue_number_verbatim {rt : Runtime} {Event : Type}
    (c : GithubContext rt Event) (d : list (string * json)) :
  cached_issue c = None ->
  _payload c = JObj d ->
  (forall v,
      fst (issue c) = Ok (Some v) ->
      exists cd, candidate d = JObj cd /\
                 dict_lookup "number" cd = Some (GitHubContextIssue.number v)) /\
  (forall cd n r,
      candidate d = JObj cd ->
      dict_lookup "number" cd = Some (JInt n) -> n <> 0%Z ->
      fst (repository c) = Ok (Some r) ->
      fst (issue c)
        = Ok (Some (GitHubContextIssue.mk (GitHubContextRepo.owner r)
                      (GitHubContextRepo.name r) (JInt n)))).
Proof.
  intros Hc Hp. rewrite (issue_result c d Hc Hp). split.
  - intros v. destruct (candidate d) as [| | | | | |cd]; try discriminate.
    cbn [py_get].
    destruct (dict_lookup "number" cd) as [x|] eqn:Hn; cbn [default from_option id].
    + destruct (negb (truthy x)); [discriminate|].
      destruct (fst (repository c)) as [[r|]|]; try discriminate.
      intros [= <-]. exists cd. split; [reflexivity|exact Hn].
    + cbn. discriminate.
  - intros cd n r -> Hn Hz ->. cbn [py_get]. rewrite Hn.
    cbn [default from_option id truthy].
    apply Z.eqb_neq in Hz. rewrite Hz. reflexivity.
Qed.

Lemma issue_number_verbatim_witness :
  fst (issue Fixture.ctx_int_number)
    = Ok (Some (GitHubContextIssue.mk (JStr "user") (JStr "repo") (JInt 9))).
Proof.
  apply (proj2 (issue_number_verbatim Fixture.ctx_int_number
                  [("issue", JObj [("number", JInt 9)])] eq_refl eq_refl)
           [("number", JInt 9)] 9%Z
           (GitHubContextRepo.mk (JStr "user") (JStr "repo")));
    try (vm_compute; reflexivity).
  discriminate.
Defined.

(** ** Missing fields *)

Lemma py_getitem_key_error (k k' : string) (v : json) :
  py_getitem k v = Raise (KeyError k') -> k' = k.
Proof.
  destruct v as [| | | | | |d]; try discriminate.
  cbn. destruct (dict_lookup k d); [discriminate|]. now intros [= ->].
Qed.

Lemma of_parts_raises (l : list string) (x : exn) :
  GitHubContextRepo.of_parts l = Raise x -> x = TypeError.
Proof.
  destruct l as [|a [|b [|z l]]]; cbn; try discriminate; now intros [= <-].
Qed.

(** On an object payload the derivation of the repository raises
    [KeyError] for no key but the three it subscripts. *)
Lemma repository_from_payload_key_error (d : list (string * json)) (k : string) :
  repository_from_payload (JObj d) = Raise (KeyError k) ->
  k = "owner" \/ k = "login" \/ k = "name".
Proof.
  unfold repository_from_payload. cbn [py_get].
  set (repo := default JNull (dict_lookup "repository" d)).
  destruct (negb (truthy repo)); [discriminate|].
  destruct (py_getitem "owner" repo) as [o|x] eqn:Ho.
  - destruct (py_getitem "login" o) as [l|x] eqn:Hl.
    + destruct (py_getitem "name" repo) as [n|x] eqn:Hn; [discriminate|].
      intros [= ->]. right; right. exact (py_getitem_key_error _ _ _ Hn).
    + intros [= ->]. right; left. exact (py_getitem_key_error _ _ _ Hl).
  - intros [= ->]. left. exact (py_getitem_key_error _ _ _ Ho).
Qed.

Lemma repository_value_key_error (e : gmap string string)
    (d : list (string * json)) (k : string) :
  repository_value e (JObj d) = Raise (KeyError k) ->
  k = "owner" \/ k = "login" \/ k = "name".
Proof.
  unfold repository_value.
  destruct (e !! "GITHUB_REPOSITORY") as [v|];
    [|apply repository_from_payload_key_error].
  destruct (negb (String.eqb v "")); [|apply repository_from_payload_key_error].
  destruct (GitHubContextRepo.of_parts (split "/" v)) as [r|x] eqn:Hparts;
    [discriminate|].
  apply of_parts_raises in Hparts. subst x. discriminate.
Qed.

(** C4, as stated, fails: with no [GITHUB_REPOSITORY] and a payload whose
    [repository] object has no [owner], both accessors raise [KeyError]. *)
Lemma missing_owner_counterexample :
  _payload Fixture.ctx_no_owner
    = JObj [("number", JStr "9"); ("repository", JObj [("name", JStr "x")])] /\
  fst (repository Fixture.ctx_no_owner) = Raise (KeyError "owner") /\
  fst (issue Fixture.ctx_no_owner) = Raise (KeyError "owner").
Proof. repeat split; vm_compute; reflexivity. Qed.

(** C4 (amended). On a fresh instance whose payload is an object:
    neither accessor raises [KeyError] for a key other than [owner],
    [login] and [name]; a candidate object without [number] (the [issue]
    object, the [pull_request] object or the payload itself) gives an
    absent issue; with [GITHUB_REPOSITORY] unset or empty, a missing
    [repository] member gives an absent repository, but a non-empty
    [repository] object without [owner], with an [owner] object without
    [login], or without [name], makes [repository] raise [KeyError] for
    that key. For a candidate that is an object, an absent repository
    gives an absent issue, and with a true number a [KeyError] of
    [repository] is raised by [issue] too. *)
Theorem missing_fields {rt : Runtime} {Event : Type}
    (c : GithubContext rt Event) (d : list (string * json)) :
  _payload c = JObj d ->
  cached_repository c = None ->
  cached_issue c = None ->
  (forall k,
      fst (repository c) = Raise (KeyError k) \/ fst (issue c) = Raise (KeyError k) ->
      k = "owner" \/ k = "login" \/ k = "name") /\
  (forall cd,
      candidate d = JObj cd -> dict_lookup "number" cd = None ->
      fst (issue c) = Ok None) /\
  (env c !! "GITHUB_REPOSITORY" = None \/ env c !! "GITHUB_REPOSITORY" = Some "" ->
   (dict_lookup "repository" d = None -> fst (repository c) = Ok None) /\
   (forall x r,
       dict_lookup "repository" d = Some (JObj (x :: r)) ->
       (dict_lookup "owner" (x :: r) = None ->
        fst (repository c) = Raise (KeyError "owner")) /\
       (forall o,
           dict_lookup "owner" (x :: r) = Some (JObj o) ->
           dict_lookup "login" o = None ->
           fst (repository c) = Raise (KeyError "login")) /\
       (forall o l,
           dict_lookup "owner" (x :: r) = Some (JObj o) ->
           dict_lookup "login" o = Some l ->
           dict_lookup "name" (x :: r) = None ->
           fst (repository c) = Raise (KeyError "name")))) /\
  (forall cd,
      candidate d = JObj cd ->
      fst (repository c) = Ok None ->
      fst (issue c) = Ok None) /\
  (forall cd k,
      candidate d = JObj cd ->
      truthy (default JNull (dict_lookup "number" cd)) = true ->
      fst (repository c) = Raise (KeyError k) ->
      fst (issue c) = Raise (KeyError k)).
Proof.
  intros Hp Hr Hi. split; [|split; [|split; [|split]]].
  - intros k [H|H].
    + rewrite (repository_result c Hr), Hp in H.
      exact (repository_value_key_error _ _ _ H).
    + rewrite (issue_result c d Hi Hp) in H.
      destruct (py_get "number" (candidate d)) as [number|x] eqn:Hn.
      * destruct (negb (truthy number)); [discriminate|].
        rewrite (repository_result c Hr), Hp in H.
        destruct (repository_value (env c) (JObj d)) as [[r|]|x] eqn:Hv;
          try discriminate.
        injection H as ->. exact (repository_value_key_error _ _ _ Hv).
      * destruct (candidate d); cbn in Hn; discriminate || congruence.
  - intros cd Hcd Hn.
    rewrite (issue_result c d Hi Hp), Hcd. cbn [py_get].
    rewrite Hn. reflexivity.
  - intros He. rewrite (repository_result_unset c Hr He), Hp.
    unfold repository_from_payload. cbn [py_get]. split.
    + intros ->. reflexivity.
    + intros x r ->. cbn [default from_option id truthy negb py_getitem].
      split; [|split].
      * intros ->. reflexivity.
      * intros o -> Hl. cbn [py_getitem]. rewrite Hl. reflexivity.
      * intros o l -> Hl Hn. cbn [py_getitem]. rewrite Hl, Hn. reflexivity.
  - intros cd Hcd Hn. rewrite (issue_result c d Hi Hp), Hcd, Hn. cbn [py_get].
    destruct (negb (truthy _)); reflexivity.
  - intros cd k Hcd Ht Hk. rewrite (issue_result c d Hi Hp), Hcd, Hk. cbn [py_get].
    rewrite Ht. reflexivity.
Qed.

Lemma missing_fields_witness :
  fst (issue Fixture.ctx_empty) = Ok None /\
  fst (repository Fixture.ctx_empty) = Ok None /\
  fst (repository Fixture.ctx_no_owner) = Raise (KeyError "owner") /\
  fst (issue Fixture.ctx_no_owner) = Raise (KeyError "owner") /\
  fst (repository Fixture.ctx_no_login) = Raise (KeyError "login") /\
  fst (repository Fixture.ctx_no_name) = Raise (KeyError "name").
Proof.
  destruct (missing_fields Fixture.ctx_empty [] eq_refl eq_refl eq_refl)
    as (_ & Hnum & Hrepo & _ & _).
  destruct (missing_fields Fixture.ctx_no_owner _ eq_refl eq_refl eq_refl)
    as (_ & _ & Howner & _ & Hissue).
  destruct (missing_fields Fixture.ctx_no_login _ eq_refl eq_refl eq_refl)
    as (_ & _ & Hlogin & _ & _).
  destruct (missing_fields Fixture.ctx_no_name _ eq_refl eq_refl eq_refl)
    as (_ & _ & Hname & _ & _).
  assert (fst (repository Fixture.ctx_no_owner) = Raise (KeyError "owner")) as Ho.
  { apply (proj1 (proj2 (Howner (or_introl eq_refl)) _ _ eq_refl)). reflexivity. }
  split; [|split; [|split; [|split; [|split]]]].
  - apply (Hnum []); reflexivity.
  - apply (proj1 (Hrepo (or_introl eq_refl))). reflexivity.
  - exact Ho.
  - eapply Hissue; [reflexivity|reflexivity|exact Ho].
  - eapply (proj1 (proj2 (proj2 (Hlogin (or_introl eq_refl)) _ _ eq_refl)));
      reflexivity.
  - eapply (proj2 (proj2 (proj2 (Hname (or_introl eq_refl)) _ _ eq_refl)));
      reflexivity.
Defined.

(** ** Memoization *)

Section Memo.
Context {rt : Runtime} {Event : Type}.
Implicit Types c : GithubContext rt Event.

(** A read of [issue] leaves a memoized repository and its counter
    alone. *)
Lemma issue_keeps_repository c v r c' :
  cached_repository c = Some v -> issue c = (r, c') ->
  cached_repository c' = Some v /\ repository_calls c' = repository_calls c.
Proof.
  intros Hv. rewrite issue_eq.
  destruct (cached_issue c); [intros [= _ <-]; now split|].
  destruct (issue_func (enter_issue c)) as [r0 c0] eqn:F.
  assert (c0 = enter_issue c) as ->.
  { destruct (issue_func_state _ _ _ F) as [->| ->]; [reflexivity|].
    now rewrite (repository_hit (enter_issue c) v Hv). }
  destruct r0; intros [= _ <-]; now split.
Qed.

(** A read of [repository] leaves a memoized issue and its counter
    alone. *)
Lemma repository_keeps_issue c r c' :
  repository c = (r, c') ->
  cached_issue c' = cached_issue c /\ issue_calls c' = issue_calls c.
Proof.
  intros H. destruct (repository_frame _ _ _ H) as (_ & _ & _ & _ & ? & ?).
  now split.
Qed.

Lemma issue_stores c v c' :
  issue c = (Ok v, c') -> cached_issue c' = Some v.
Proof.
  rewrite issue_eq. destruct (cached_issue c) as [w|] eqn:E.
  - intros [= <- <-]. exact E.
  - destruct (issue_func (enter_issue c)) as [[w|x] c0]; intros [= <- <-].
    reflexivity.
Qed.

(** Once the repository is in the instance, no sequence of reads and
    outside changes runs its derivation or shows another value. *)
Lemma run_repository_memoized (l : list access) :
  forall c v,
    cached_repository c = Some v ->
    (forall r, In (SawRepository r) (fst (run l c)) -> r = Ok v) /\
    repository_calls (snd (run l c)) = repository_calls c.
Proof.
  induction l as [|a l IH]; intros c v Hv; [now split|].
  cbn [run]. destruct (step a c) as [o c1] eqn:S.
  assert (cached_repository c1 = Some v
          /\ repository_calls c1 = repository_calls c
          /\ (forall r, o = SawRepository r -> r = Ok v)) as (Hv1 & Hn1 & Ho).
  { destruct a as [| |e payload]; cbn [step] in S.
    - rewrite (repository_hit c v Hv) in S. injection S as <- <-.
      repeat split; [assumption|]. now intros r [= <-].
    - destruct (issue c) as [ri ci] eqn:I. injection S as <- <-.
      destruct (issue_keeps_repository _ _ _ _ Hv I). repeat split; try assumption.
      discriminate.
    - injection S as <- <-. repeat split; [assumption|]. discriminate. }
  destruct (run l c1) as [os c2] eqn:R.
  destruct (IH c1 v Hv1) as [Hobs Hn]. rewrite R in Hobs, Hn. cbn [fst snd] in *.
  split; [|congruence].
  intros r [->|Hin]; [now apply Ho|now apply Hobs].
Qed.

Lemma run_issue_memoized (l : list access) :
  forall c v,
    cached_issue c = Some v ->
    (forall r, In (SawIssue r) (fst (run l c)) -> r = Ok v) /\
    issue_calls (snd (run l c)) = issue_calls c.
Proof.
  induction l as [|a l IH]; intros c v Hv; [now split|].
  cbn [run]. destruct (step a c) as [o c1] eqn:S.
  assert (cached_issue c1 = Some v
          /\ issue_calls c1 = issue_calls c
          /\ (forall r, o = SawIssue r -> r = Ok v)) as (Hv1 & Hn1 & Ho).
  { destruct a as [| |e payload]; cbn [step] in S.
    - destruct (repository c) as [rr cr] eqn:I. injection S as <- <-.
      destruct (repository_keeps_issue _ _ _ I) as [Hc Hn].
      repeat split; [congruence|assumption|discriminate].
    - rewrite (issue_hit c v Hv) in S. injection S as <- <-.
      repeat split; [assumption|]. now intros r [= <-].
    - injection S as <- <-. repeat split; [assumption|]. discriminate. }
  destruct (run l c1) as [os c2] eqn:R.
  destruct (IH c1 v Hv1) as [Hobs Hn]. rewrite R in Hobs, Hn. cbn [fst snd] in *.
  split; [|congruence].
  intros r [->|Hin]; [now apply Ho|now apply Hobs].
Qed.

Lemma repository_calls_once c r c' :
  repository c = (r, c') -> repository_calls c' <= S (repository_calls c).
Proof.
  rewrite repository_eq. destruct (cached_repository c).
  - intros [= _ <-]. lia.
  - destruct (repository_value _ _); intros [= _ <-]; cbn; lia.
Qed.

Lemma issue_calls_once c r c' :
  issue c = (r, c') -> issue_calls c' <= S (issue_calls c).
Proof.
  rewrite issue_eq. destruct (cached_issue c); [intros [= _ <-]; lia|].
  destruct (issue_func (enter_issue c)) as [r0 c0] eqn:F.
  assert (issue_calls c0 = S (issue_calls c)) as Hn.
  { destruct (issue_func_state _ _ _ F) as [->| ->]; [reflexivity|].
    destruct (repository (enter_issue c)) as [rr cr] eqn:R. cbn [snd].
    destruct (repository_keeps_issue _ _ _ R) as [_ ->]. reflexivity. }
  destruct r0; intros [= _ <-]; cbn; lia.
Qed.
End Memo.

(** C3, as stated, fails: a derivation that raises stores nothing, so
    the next read runs it again. With [GITHUB_REPOSITORY] set to a text
    without a slash both derivations run twice in two reads, and after
    the variable is corrected in between, the second read returns a
    repository although the first one raised. *)
Lemma memoization_counterexample :
  fst (run [ReadRepository; ReadRepository] Fixture.ctx_no_slash)
    = [SawRepository (Raise TypeError); SawRepository (Raise TypeError)] /\
  repository_calls (snd (run [ReadRepository; ReadRepository] Fixture.ctx_no_slash)) = 2 /\
  fst (run [ReadIssue; ReadIssue] Fixture.ctx_no_slash_number)
    = [SawIssue (Raise TypeError); SawIssue (Raise TypeError)] /\
  issue_calls (snd (run [ReadIssue; ReadIssue] Fixture.ctx_no_slash_number)) = 2 /\
  fst (run [ReadRepository; Mutate Fixture.env_acme (JObj []); ReadRepository]
         Fixture.ctx_no_slash)
    = [SawRepository (Raise TypeError); SawNothing;
       SawRepository (Ok (Some (GitHubContextRepo.mk (JStr "acme") (JStr "widgets"))))].
Proof. repeat split; vm_compute; reflexivity. Qed.

(** A read that finds nothing memoized enters the derivation once, and
    stores nothing when it raises. *)
Lemma repository_miss {rt : Runtime} {Event : Type}
    (c : GithubContext rt Event) (r : result (option GitHubContextRepo.t))
    (c1 : GithubContext rt Event) :
  cached_repository c = None -> repository c = (r, c1) ->
  repository_calls c1 = S (repository_calls c) /\
  (forall x, r = Raise x -> cached_repository c1 = None).
Proof.
  intros Hc. rewrite repository_eq, Hc.
  destruct (repository_value _ _); intros [= <- <-]; (split; [reflexivity|]).
  - discriminate.
  - intros _ _. exact Hc.
Qed.

Lemma issue_miss {rt : Runtime} {Event : Type}
    (c : GithubContext rt Event) (r : result (option GitHubContextIssue.t))
    (c1 : GithubContext rt Event) :
  cached_issue c = None -> issue c = (r, c1) ->
  issue_calls c1 = S (issue_calls c) /\
  (forall x, r = Raise x -> cached_issue c1 = None).
Proof.
  intros Hc. rewrite issue_eq, Hc.
  destruct (issue_func (enter_issue c)) as [r0 c0] eqn:F.
  assert (issue_calls c0 = S (issue_calls c) /\ cached_issue c0 = None) as [Hn H0].
  { destruct (issue_func_state _ _ _ F) as [->| ->]; [now split|].
    destruct (repository (enter_issue c)) as [rr cr] eqn:R. cbn [snd].
    destruct (repository_keeps_issue _ _ _ R) as [-> ->]. now split. }
  destruct r0; intros [= <- <-]; (split; [exact Hn|]).
  - discriminate.
  - intros _ _. exact H0.
Qed.

(** C3 (amended). A read of [repository] that returns a value or absent
    runs the derivation at most once, and from then on, whatever reads
    follow and however the environment mapping and the payload are
    changed from outside in between, every read of [repository] returns
    that first result and the derivation is not run again; the same for
    [issue]. A read that raises has run the derivation and stored
    nothing, so the next read runs the derivation again; the same for
    [issue]. *)
Theorem memoized_once {rt : Runtime} {Event : Type} (c : GithubContext rt Event) :
  (forall v c1,
      repository c = (Ok v, c1) ->
      repository_calls c1 <= S (repository_calls c) /\
      forall l,
        (forall r, In (SawRepository r) (fst (run l c1)) -> r = Ok v) /\
        repository_calls (snd (run l c1)) = repository_calls c1) /\
  (forall v c1,
      issue c = (Ok v, c1) ->
      issue_calls c1 <= S (issue_calls c) /\
      forall l,
        (forall r, In (SawIssue r) (fst (run l c1)) -> r = Ok v) /\
        issue_calls (snd (run l c1)) = issue_calls c1) /\
  (forall x c1,
      repository c = (Raise x, c1) ->
      repository_calls c1 = S (repository_calls c) /\
      cached_repository c1 = None /\
      repository_calls (snd (repository c1)) = S (repository_calls c1)) /\
  (forall x c1,
      issue c = (Raise x, c1) ->
      issue_calls c1 = S (issue_calls c) /\
      cached_issue c1 = None /\
      issue_calls (snd (issue c1)) = S (issue_calls c1)).
Proof.
  split; [|split; [|split]].
  - intros v c1 H.
    split; [exact (repository_calls_once _ _ _ H)|].
    intros l. apply run_repository_memoized. exact (repository_stores _ _ _ H).
  - intros v c1 H.
    split; [exact (issue_calls_once _ _ _ H)|].
    intros l. apply run_issue_memoized. exact (issue_stores _ _ _ H).
  - intros x c1 H.
    assert (cached_repository c = None) as Hc.
    { destruct (cached_repository c) as [v|] eqn:E; [|reflexivity].
      rewrite (repository_hit c v E) in H. discriminate. }
    destruct (repository_miss c _ c1 Hc H) as [Hn H1].
    specialize (H1 x eq_refl). split; [exact Hn|]. split; [exact H1|].
    destruct (repository c1) as [r2 c2] eqn:R2.
    exact (proj1 (repository_miss c1 r2 c2 H1 R2)).
  - intros x c1 H.
    assert (cached_issue c = None) as Hc.
    { destruct (cached_issue c) as [v|] eqn:E; [|reflexivity].
      rewrite (issue_hit c v E) in H. discriminate. }
    destruct (issue_miss c _ c1 Hc H) as [Hn H1].
    specialize (H1 x eq_refl). split; [exact Hn|]. split; [exact H1|].
    destruct (issue c1) as [r2 c2] eqn:R2.
    exact (proj1 (issue_miss c1 r2 c2 H1 R2)).
Qed.

Lemma memoized_once_witness :
  repository_calls
    (snd (run [Mutate ∅ (JObj []); ReadRepository; ReadIssue; ReadRepository]
            (snd (repository Fixture.ctx_acme)))) = 1 /\
  issue_calls
    (snd (run [ReadRepository; Mutate ∅ (JObj []); ReadIssue]
            (snd (issue Fixture.ctx_empty_issue)))) = 1 /\
  repository_calls (snd (repository (snd (repository Fixture.ctx_no_slash)))) = 2 /\
  issue_calls (snd (issue (snd (issue Fixture.ctx_no_slash_number)))) = 2.
Proof.
  destruct (memoized_once Fixture.ctx_acme) as (Hrepo & _ & _ & _).
  destruct (memoized_once Fixture.ctx_empty_issue) as (_ & Hissue & _ & _).
  destruct (memoized_once Fixture.ctx_no_slash) as (_ & _ & Hrr & _).
  destruct (memoized_once Fixture.ctx_no_slash_number) as (_ & _ & _ & Hir).
  split; [|split; [|split]].
  - apply (proj2 (Hrepo (Some (GitHubContextRepo.mk (JStr "acme") (JStr "widgets")))
                    (snd (repository Fixture.ctx_acme)) eq_refl)).
  - apply (proj2 (Hissue (Some (GitHubContextIssue.mk (JStr "user") (JStr "repo")
                                  (JStr "9")))
                    (snd (issue Fixture.ctx_empty_issue)) eq_refl)).
  - apply (proj2 (proj2 (Hrr TypeError (snd (repository Fixture.ctx_no_slash))
                           eq_refl))).
  - apply (proj2 (proj2 (Hir TypeError (snd (issue Fixture.ctx_no_slash_number))
                           eq_refl))).
Defined.

(** ** Accessors that pass an environment variable through *)

Lemma env_get_passthrough {rt : Runtime} {Event : Type} (k d : string) :
  passthrough rt Event (env_get k d) k d (fun v => v).
Proof.
  intros c. unfold env_get. split.
  - intros ->. reflexivity.
  - intros v ->. reflexivity.
Qed.

Lemma lookup_passthrough {rt : Runtime} {Event : Type} (k : string) :
  passthrough rt Event (fun c => env c !! k) k None Some.
Proof. intros c. split; [intros ->|intros v ->]; reflexivity. Qed.

Lemma in_1_true_spec (s : string) :
  in_1_true s = bool_decide (s = "1" \/ s = "true").
Proof.
  unfold in_1_true.
  destruct (String.eqb_spec s "1") as [->|H1]; [reflexivity|].
  destruct (String.eqb_spec s "true") as [->|H2]; [reflexivity|].
  cbn. symmetry. apply bool_decide_eq_false. intros [?|?]; contradiction.
Qed.

(** C6, as stated, fails for [action_path]: with [GITHUB_ACTION_PATH] set
    to the empty text the accessor returns absent, not the path of that
    value. *)
Lemma action_path_empty_counterexample :
  env Fixture.ctx_empty_action_path !! "GITHUB_ACTION_PATH" = Some "" /\
  action_path Fixture.ctx_empty_action_path = None /\
  ~ passthrough Fixture.rt unit action_path
      "GITHUB_ACTION_PATH" None (fun v => Some (Path Fixture.rt v)).
Proof.
  split; [vm_compute; reflexivity|]. split; [vm_compute; reflexivity|].
  intros H.
  destruct (H Fixture.ctx_empty_action_path) as [_ Hset].
  specialize (Hset "" eq_refl). vm_compute in Hset. discriminate.
Qed.

(** C6 (amended). Every accessor of the table returns its documented
    default when its variable is unset and the value [v] when it is set
    to [v], with two exceptions: [action_path] returns the path of [v]
    when [v] is not empty and absent when [v] is empty; [ref_protected]
    returns true exactly when [v] in lower case is [1] or [true]. *)
Theorem passthrough_accessors {rt : Runtime} {Event : Type} :
  passthrough rt Event action "GITHUB_ACTION" "" (fun v => v) /\
  passthrough rt Event action_path "GITHUB_ACTION_PATH" None
    (fun v => if String.eqb v "" then None else Some (Path rt v)) /\
  passthrough rt Event action_ref "GITHUB_ACTION_REF" None Some /\
  passthrough rt Event action_repository "GITHUB_ACTION_REPOSITORY" None Some /\
  passthrough rt Event actor "GITHUB_ACTOR" "" (fun v => v) /\
  passthrough rt Event api_url "GITHUB_API_URL" "https://api.github.com" (fun v => v) /\
  passthrough rt Event base_ref "GITHUB_BASE_REF" None Some /\
  passthrough rt Event event_name "GITHUB_EVENT_NAME" "" (fun v => v) /\
  passthrough rt Event graphql_url "GITHUB_GRAPHQL_URL" "https://api.github.com/graphql" (fun v => v) /\
  passthrough rt Event head_ref "GITHUB_HEAD_REF" None Some /\
  passthrough rt Event job "GITHUB_JOB" None Some /\
  passthrough rt Event ref "GITHUB_REF" "" (fun v => v) /\
  passthrough rt Event ref_name "GITHUB_REF_NAME" "" (fun v => v) /\
  passthrough rt Event ref_protected "GITHUB_REF_PROTECTED" false
    (fun v => bool_decide (lower v = "1" \/ lower v = "true")) /\
  passthrough rt Event ref_type "GITHUB_REF_TYPE" "branch" (fun v => v) /\
  passthrough rt Event server_url "GITHUB_SERVER_URL" "https://github.com" (fun v => v) /\
  passthrough rt Event sha "GITHUB_SHA" "" (fun v => v) /\
  passthrough rt Event token "GITHUB_TOKEN" "" (fun v => v) /\
  passthrough rt Event triggering_actor "GITHUB_TRIGGERING_ACTOR" "" (fun v => v) /\
  passthrough rt Event workflow "GITHUB_WORKFLOW" "" (fun v => v) /\
  passthrough rt Event workflow_ref "GITHUB_WORKFLOW_REF" "" (fun v => v) /\
  passthrough rt Event workflow_sha "GITHUB_WORKFLOW_SHA" "" (fun v => v).
Proof.
  repeat match goal with
         | |- _ /\ _ => split
         | |- passthrough _ _ _ _ _ (fun v => v) => apply env_get_passthrough
         | |- passthrough _ _ _ _ None Some => apply lookup_passthrough
         end.
  - intros c. unfold action_path. split.
    + intros ->. reflexivity.
    + intros v ->. destruct (String.eqb v ""); reflexivity.
  - intros c. unfold ref_protected, env_get. split.
    + intros ->. reflexivity.
    + intros v ->. apply in_1_true_spec.
Qed.

Lemma passthrough_accessors_witness :
  ref_protected Fixture.ctx_protected = true /\
  ref_type Fixture.ctx_protected = "branch" /\
  action_path Fixture.ctx_empty_action_path = None.
Proof.
  pose proof (@passthrough_accessors Fixture.rt unit) as H.
  split; [|split].
  - apply (proj2 (proj1 (proj2 (proj2 (proj2 (proj2 (proj2 (proj2 (proj2
             (proj2 (proj2 (proj2 (proj2 (proj2 (proj2 H)))))))))))))
             Fixture.ctx_protected) "True").
    vm_compute; reflexivity.
  - apply (proj1 (proj1 (proj2 (proj2 (proj2 (proj2 (proj2 (proj2 (proj2 (proj2
             (proj2 (proj2 (proj2 (proj2 (proj2 (proj2 H))))))))))))))
             Fixture.ctx_protected)).
    vm_compute; reflexivity.
  - apply (proj2 (proj1 (proj2 H) Fixture.ctx_empty_action_path) "").
    vm_compute; reflexivity.
Defined.

(** ** Construction *)

Section Init.
Context (rt : Runtime) {Event : Type}.
Implicit Types (environ : option (gmap string string)) (ev : Event)
  (p : option (path rt)).

(** [event_path] by cases: the explicit path, else the variable when it
    is set and not empty, else nothing. *)
Lemma event_path_explicit (c : GithubContext rt Event) (q : path rt) :
  _event_path c = Some q -> event_path c = Some q.
Proof. unfold event_path. intros ->. reflexivity. Qed.

Lemma event_path_variable (c : GithubContext rt Event) (v : string) :
  _event_path c = None -> env c !! "GITHUB_EVENT_PATH" = Some v -> v <> "" ->
  event_path c = Some (Path rt v).
Proof.
  unfold event_path. intros -> -> Hv.
  apply String.eqb_neq in Hv. rewrite Hv. reflexivity.
Qed.

Lemma event_path_nothing (c : GithubContext rt Event) :
  _event_path c = None ->
  env c !! "GITHUB_EVENT_PATH" = None \/ env c !! "GITHUB_EVENT_PATH" = Some "" ->
  event_path c = None.
Proof. unfold event_path. intros -> [-> | ->]; reflexivity. Qed.

(** The instance the constructor returns differs from [fresh] at most in
    its payload. *)
Lemma init_fresh environ ev p (c : GithubContext rt Event) :
  __init__ rt environ ev p = Ok c ->
  exists payload, c = fresh rt (env_or_os_environ rt environ) ev p payload.
Proof.
  unfold __init__.
  destruct (event_path _) as [f|]; [|intros [= <-]; eauto].
  destruct (is_file rt f); [|intros [= <-]; eauto].
  destruct (read_text rt f) as [text|x]; [|discriminate].
  destruct (json_loads rt text) as [j|]; [|discriminate].
  intros [= <-]; eauto.
Qed.

(** The constructor, once the path of the payload file is known. *)
Lemma init_at environ ev p (f : path rt) :
  event_path (fresh rt (env_or_os_environ rt environ) ev p (JObj [])) = Some f ->
  __init__ rt environ ev p =
    if is_file rt f then
      match read_text rt f with
      | Text text =>
          match json_loads rt text with
          | Some j => Ok (fresh rt (env_or_os_environ rt environ) ev p j)
          | None => Raise JSONDecodeError
          end
      | Unreadable x => Raise (ReadError x)
      end
    else Ok (fresh rt (env_or_os_environ rt environ) ev p (JObj [])).
Proof. unfold __init__. intros ->. reflexivity. Qed.

Lemma init_no_path environ ev p :
  event_path (fresh rt (env_or_os_environ rt environ) ev p (JObj [])) = None ->
  __init__ rt environ ev p
    = Ok (fresh rt (env_or_os_environ rt environ) ev p (JObj [])).
Proof. unfold __init__. intros ->. reflexivity. Qed.
End Init.

(** C7, as stated, fails: a file that exists and cannot be read is not
    treated as no file. With [GITHUB_EVENT_PATH] naming a file that may
    not be opened, the constructor raises the read error instead of
    keeping an empty mapping as raw payload. Besides, a
    [GITHUB_EVENT_PATH] that is set to the empty text resolves to no path
    rather than to the path of that value. *)
Lemma init_unreadable_counterexample :
  is_file Fixture.rt (Path Fixture.rt "locked.json") = true /\
  read_text Fixture.rt (Path Fixture.rt "locked.json") = Unreadable PermissionError /\
  __init__ Fixture.rt (Some Fixture.env_locked) tt None
    = Raise (ReadError PermissionError) /\
  __init__ Fixture.rt (Some Fixture.env_locked) tt None
    <> Ok (fresh Fixture.rt Fixture.env_locked tt None (JObj [])) /\
  event_path (fresh Fixture.rt Fixture.env_empty_path tt None (JObj [])) = None.
Proof.
  split; [reflexivity|]. split; [reflexivity|].
  split; [vm_compute; reflexivity|].
  split; [vm_compute; discriminate|vm_compute; reflexivity].
Qed.

(** C7 (amended). The constructor keeps the event value and the
    environment (the given mapping, or the process environment), and
    resolves the payload path as the explicit argument; else, with no
    explicit argument, as the path of [GITHUB_EVENT_PATH] in the
    environment it keeps when that is set and not empty; else as absent;
    [event_path] answers that path. When the resolved path is a file, its
    text is read and parsed: a text that parses becomes the raw payload,
    a text that does not parse makes the constructor raise the parse
    error, and a file that cannot be read makes it raise the read error.
    When there is no file at the resolved path, or no path, the raw
    payload is the empty mapping. *)
Theorem init_payload (rt : Runtime) {Event : Type}
    (environ : option (gmap string string)) (ev : Event) (p : option (path rt)) :
  (forall c, __init__ rt environ ev p = Ok c ->
     event c = ev /\
     env c = env_or_os_environ rt environ /\
     (forall q, p = Some q -> event_path c = Some q) /\
     (forall v,
         p = None -> env c !! "GITHUB_EVENT_PATH" = Some v -> v <> "" ->
         event_path c = Some (Path rt v)) /\
     (p = None ->
      env c !! "GITHUB_EVENT_PATH" = None \/ env c !! "GITHUB_EVENT_PATH" = Some "" ->
      event_path c = None)) /\
  (forall f,
      p = Some f \/
      (p = None /\
       exists v, env_or_os_environ rt environ !! "GITHUB_EVENT_PATH" = Some v /\
                 v <> "" /\ f = Path rt v) ->
      (is_file rt f = true ->
       (forall text j,
           read_text rt f = Text text -> json_loads rt text = Some j ->
           exists c, __init__ rt environ ev p = Ok c /\ _payload c = j) /\
       (forall text,
           read_text rt f = Text text -> json_loads rt text = None ->
           __init__ rt environ ev p = Raise JSONDecodeError) /\
       (forall x,
           read_text rt f = Unreadable x ->
           __init__ rt environ ev p = Raise (ReadError x))) /\
      (is_file rt f = false ->
       exists c, __init__ rt environ ev p = Ok c /\ _payload c = JObj [])) /\
  (p = None ->
   env_or_os_environ rt environ !! "GITHUB_EVENT_PATH" = None \/
   env_or_os_environ rt environ !! "GITHUB_EVENT_PATH" = Some "" ->
   exists c, __init__ rt environ ev p = Ok c /\ _payload c = JObj []).
Proof.
  split; [|split].
  - intros c H. destruct (init_fresh rt _ _ _ _ H) as [payload ->].
    split; [reflexivity|]. split; [reflexivity|]. split; [|split].
    + intros q ->. now apply event_path_explicit.
    + intros v -> Hv Hne. now apply event_path_variable.
    + intros -> Hv. now apply event_path_nothing.
  - intros f Hf.
    assert (event_path (fresh rt (env_or_os_environ rt environ) ev p (JObj []))
            = Some f) as Hpath.
    { destruct Hf as [->|(-> & v & Hv & Hne & ->)].
      - now apply event_path_explicit.
      - now apply event_path_variable. }
    rewrite (init_at rt _ _ _ _ Hpath). split.
    + intros ->. split; [|split].
      * intros text j -> ->. eexists. split; reflexivity.
      * intros text -> ->. reflexivity.
      * intros x ->. reflexivity.
    + intros ->. eexists. split; reflexivity.
  - intros -> Hv. rewrite init_no_path.
    + eexists. split; reflexivity.
    + now apply event_path_nothing.
Qed.

Lemma init_payload_witness :
  (exists c, __init__ Fixture.rt None tt None = Ok c
             /\ _payload c = Fixture.event_value) /\
  __init__ Fixture.rt (Some Fixture.env_broken) tt None = Raise JSONDecodeError /\
  __init__ Fixture.rt (Some Fixture.env_locked) tt (Some "locked.json")
    = Raise (ReadError PermissionError) /\
  (exists c, __init__ Fixture.rt (Some Fixture.env_missing) tt None = Ok c
             /\ _payload c = JObj []) /\
  (exists c, __init__ Fixture.rt (Some Fixture.env_empty_path) tt None = Ok c
             /\ _payload c = JObj []).
Proof.
  split; [|split; [|split; [|split]]].
  - destruct (init_payload Fixture.rt None tt None) as (_ & H & _).
    destruct (H "event.json") as [Hfile _].
    + right. split; [reflexivity|]. exists "event.json".
      split; [vm_compute; reflexivity|]. split; [discriminate|reflexivity].
    + apply (proj1 (Hfile eq_refl) Fixture.event_text); vm_compute; reflexivity.
  - destruct (init_payload Fixture.rt (Some Fixture.env_broken) tt None) as (_ & H & _).
    destruct (H "broken.json") as [Hfile _].
    + right. split; [reflexivity|]. exists "broken.json".
      split; [vm_compute; reflexivity|]. split; [discriminate|reflexivity].
    + apply (proj1 (proj2 (Hfile eq_refl)) "{"); vm_compute; reflexivity.
  - destruct (init_payload Fixture.rt (Some Fixture.env_locked) tt (Some "locked.json"))
      as (_ & H & _).
    destruct (H "locked.json" (or_introl eq_refl)) as [Hfile _].
    apply (proj2 (proj2 (Hfile eq_refl))). reflexivity.
  - destruct (init_payload Fixture.rt (Some Fixture.env_missing) tt None) as (_ & H & _).
    destruct (H "missing.json") as [_ Hno].
    + right. split; [reflexivity|]. exists "missing.json".
      split; [vm_compute; reflexivity|]. split; [discriminate|reflexivity].
    + apply Hno. reflexivity.
  - destruct (init_payload Fixture.rt (Some Fixture.env_empty_path) tt None) as (_ & _ & H).
    apply H; [reflexivity|]. right. vm_compute; reflexivity.
Defined.

(** C9. An explicitly supplied empty environment mapping is not used:
    the constructor does exactly what it does when the argument is
    omitted and keeps a copy of the process environment; a mapping that
    is not empty is kept as given. *)
Theorem empty_environ_replaced (rt : Runtime) {Event : Type}
    (ev : Event) (p : option (path rt)) :
  __init__ rt (Some ∅) ev p = __init__ rt None ev p /\
  (forall c, __init__ rt (Some ∅) ev p = Ok c -> env c = os_environ rt) /\
  (forall m c, m <> ∅ -> __init__ rt (Some m) ev p = Ok c -> env c = m).
Proof.
  split; [|split].
  - unfold __init__, env_or_os_environ. rewrite decide_True by reflexivity.
    reflexivity.
  - intros c H. destruct (init_fresh rt _ _ _ _ H) as [payload ->].
    cbn [env fresh env_or_os_environ]. rewrite decide_True by reflexivity.
    reflexivity.
  - intros m c Hm H. destruct (init_fresh rt _ _ _ _ H) as [payload ->].
    cbn [env fresh env_or_os_environ]. rewrite decide_False by exact Hm.
    reflexivity.
Qed.

Lemma empty_environ_replaced_witness :
  (exists c, __init__ Fixture.rt (Some ∅) tt None = Ok c
             /\ env c = os_environ Fixture.rt) /\
  (exists c, __init__ Fixture.rt (Some Fixture.env_missing) tt None = Ok c
             /\ env c = Fixture.env_missing).
Proof.
  split; eexists; (split; [reflexivity|]).
  - apply (proj1 (proj2 (empty_environ_replaced Fixture.rt tt None))).
    reflexivity.
  - apply (proj2 (proj2 (empty_environ_replaced Fixture.rt tt None))
             Fixture.env_missing); [|reflexivity].
    intros H. apply (f_equal (fun m => m !! "GITHUB_EVENT_PATH")) in H.
    vm_compute in H. discriminate.
Defined.

(** ** Construction from a file *)

Lemma resolve_event_path_spec (rt : Runtime)
    (environ : option (gmap string string)) (a : option (path_arg rt)) :
  explicit_arg a = true \/ same_event_path_var rt environ ->
  resolve_event_path rt a
    = spec_from_file_path rt (env_or_os_environ rt environ) a.
Proof.
  unfold same_event_path_var, resolve_event_path, spec_from_file_path, explicit_arg.
  destruct a as [[q|s]|]; [reflexivity| |].
  - destruct (String.eqb s ""); cbn [negb]; [|reflexivity].
    intros [H| ->]; [discriminate|reflexivity].
  - intros [H| ->]; [discriminate|reflexivity].
Qed.

(** [from_file], by what the resolved path leads to. The constructor it
    ends with is given that path, asks the file system again and gets the
    same answers. *)
Lemma from_file_eq (rt : Runtime) (environ : option (gmap string string))
    (a : option (path_arg rt)) :
  from_file rt environ a =
    if is_file rt (resolve_event_path rt a) then
      match read_text rt (resolve_event_path rt a) with
      | Text text =>
          match json_loads rt text with
          | Some j =>
              Ok (fresh rt (env_or_os_environ rt environ) j
                    (Some (resolve_event_path rt a)) j)
          | None => Raise JSONDecodeError
          end
      | Unreadable x => Raise (ReadError x)
      end
    else Raise FileNotFoundError.
Proof.
  unfold from_file.
  destruct (is_file rt (resolve_event_path rt a)) eqn:Hf; [|reflexivity].
  cbn [negb].
  destruct (read_text rt (resolve_event_path rt a)) as [text|x] eqn:Ht; [|reflexivity].
  destruct (json_loads rt text) as [j|] eqn:Hj; [|reflexivity].
  rewrite (init_at rt environ j (Some (resolve_event_path rt a))
             (resolve_event_path rt a) eq_refl).
  rewrite Hf, Ht, Hj. reflexivity.
Qed.

(** C5, as stated, fails twice. An explicit path that is not a file is
    not replaced by [GITHUB_EVENT_PATH], although that variable names an
    existing file: [from_file] raises [FileNotFoundError]. And a file
    that exists and does not parse gives neither [FileNotFoundError] nor
    an accessor: [from_file] raises the parse error. *)
Lemma from_file_counterexample :
  os_environ Fixture.rt !! "GITHUB_EVENT_PATH" = Some "event.json" /\
  is_file Fixture.rt (Path Fixture.rt "event.json") = true /\
  spec_no_payload_path Fixture.rt (os_environ Fixture.rt)
    (Some (ArgStr Fixture.rt "missing.json")) = false /\
  from_file Fixture.rt None (Some (ArgStr Fixture.rt "missing.json"))
    = Raise FileNotFoundError /\
  spec_no_payload_path Fixture.rt (os_environ Fixture.rt)
    (Some (ArgStr Fixture.rt "broken.json")) = false /\
  from_file Fixture.rt None (Some (ArgStr Fixture.rt "broken.json"))
    = Raise JSONDecodeError.
Proof. repeat split; vm_compute; reflexivity. Qed.

(** C5 (amended). Let the resolved path be the explicit argument when
    one is given (a path, or a text that is not empty), and otherwise the
    value of [GITHUB_EVENT_PATH] (the empty text when unset); for that
    second case only, the environment the accessor keeps and the process
    environment are taken to agree on the variable. [from_file] raises
    [FileNotFoundError] exactly when the resolved path is not an existing
    file. When it is a file whose text parses, [from_file] returns an
    accessor whose event value and raw payload are both the parsed value
    and whose [event_path] is the resolved path; when the text does not
    parse, it raises the parse error; when the file cannot be read, it
    raises the read error. *)
Theorem from_file_outcome (rt : Runtime)
    (environ : option (gmap string string)) (a : option (path_arg rt)) :
  explicit_arg a = true \/ same_event_path_var rt environ ->
  (from_file rt environ a = Raise FileNotFoundError <->
   is_file rt (spec_from_file_path rt (env_or_os_environ rt environ) a) = false) /\
  (is_file rt (spec_from_file_path rt (env_or_os_environ rt environ) a) = true ->
   (forall text j,
       read_text rt (spec_from_file_path rt (env_or_os_environ rt environ) a)
         = Text text ->
       json_loads rt text = Some j ->
       exists c,
         from_file rt environ a = Ok c /\
         event c = j /\ _payload c = j /\
         event_path c
           = Some (spec_from_file_path rt (env_or_os_environ rt environ) a)) /\
   (forall text,
       read_text rt (spec_from_file_path rt (env_or_os_environ rt environ) a)
         = Text text ->
       json_loads rt text = None ->
       from_file rt environ a = Raise JSONDecodeError) /\
   (forall x,
       read_text rt (spec_from_file_path rt (env_or_os_environ rt environ) a)
         = Unreadable x ->
       from_file rt environ a = Raise (ReadError x))).
Proof.
  intros Hres. rewrite from_file_eq.
  rewrite (resolve_event_path_spec rt environ a Hres).
  set (p := spec_from_file_path rt (env_or_os_environ rt environ) a).
  split.
  - destruct (is_file rt p); [|split; reflexivity].
    split; [|discriminate].
    destruct (read_text rt p) as [text|x]; [|discriminate].
    destruct (json_loads rt text); discriminate.
  - intros ->. split; [|split].
    + intros text j -> ->. eexists. repeat split.
    + intros text -> ->. reflexivity.
    + intros x ->. reflexivity.
Qed.

Lemma from_file_outcome_witness :
  (exists c,
      from_file Fixture.rt (Some Fixture.env_user)
        (Some (ArgStr Fixture.rt "event.json")) = Ok c /\
      event c = Fixture.event_value /\ _payload c = Fixture.event_value /\
      event_path c = Some "event.json") /\
  (exists c,
      from_file Fixture.rt None None = Ok c /\
      event c = Fixture.event_value /\ _payload c = Fixture.event_value /\
      event_path c = Some "event.json") /\
  from_file Fixture.rt None (Some (ArgStr Fixture.rt "missing.json"))
    = Raise FileNotFoundError /\
  from_file Fixture.rt None (Some (ArgStr Fixture.rt "locked.json"))
    = Raise (ReadError PermissionError).
Proof.
  split; [|split; [|split]].
  - destruct (from_file_outcome Fixture.rt (Some Fixture.env_user)
                (Some (ArgStr Fixture.rt "event.json")) (or_introl eq_refl))
      as [_ H].
    apply (proj1 (H eq_refl) Fixture.event_text Fixture.event_value);
      vm_compute; reflexivity.
  - destruct (from_file_outcome Fixture.rt None None (or_intror eq_refl)) as [_ H].
    apply (proj1 (H eq_refl) Fixture.event_text Fixture.event_value);
      vm_compute; reflexivity.
  - apply (proj2 (proj1 (from_file_outcome Fixture.rt None
                           (Some (ArgStr Fixture.rt "missing.json"))
                           (or_introl eq_refl)))).
    reflexivity.
  - destruct (from_file_outcome Fixture.rt None
                (Some (ArgStr Fixture.rt "locked.json")) (or_introl eq_refl))
      as [_ H].
    apply (proj2 (proj2 (H eq_refl))). reflexivity.
Defined.

(** ** The repository address *)

(** C8. When [repository] is present, [repository_url] is the server
    address, a slash, the owner, a slash and the name; when [repository]
    is absent, so is [repository_url]. With [GITHUB_SERVER_URL] unset the
    address of a repository with owner [o] and name [n] starts with the
    default server, [https://github.com]. *)
Theorem repository_url_format {rt : Runtime} {Event : Type}
    (c : GithubContext rt Event) :
  (forall r c',
      repository c = (Ok (Some r), c') ->
      repository_url c
        = (Ok (Some (server_url c +:+ "/"
                     +:+ fstring_field rt (GitHubContextRepo.owner r) +:+ "/"
                     +:+ fstring_field rt (GitHubContextRepo.name r))), c')) /\
  (forall c', repository c = (Ok None, c') -> repository_url c = (Ok None, c')) /\
  (forall o n c',
      env c !! "GITHUB_SERVER_URL" = None ->
      repository c = (Ok (Some (GitHubContextRepo.mk (JStr o) (JStr n))), c') ->
      fst (repository_url c) = Ok (Some ("https://github.com/" +:+ o +:+ "/" +:+ n))).
Proof.
  assert (forall r c',
    repository c = (Ok (Some r), c') ->
    repository_url c
      = (Ok (Some (server_url c +:+ "/"
                   +:+ fstring_field rt (GitHubContextRepo.owner r) +:+ "/"
                   +:+ fstring_field rt (GitHubContextRepo.name r))), c')) as Hsome.
  { intros r c' R. unfold repository_url, bind, gets, lift, ret.
    rewrite R. cbn [is_Some_b].
    rewrite (repository_hit c' _ (repository_stores _ _ _ R)). cbn [repo_owner].
    rewrite (repository_hit c' _ (repository_stores _ _ _ R)). cbn [repo_name].
    destruct (repository_frame _ _ _ R) as (He & _).
    unfold server_url, env_get. rewrite He. reflexivity. }
  split; [exact Hsome|split].
  - intros c' R. unfold repository_url, bind, ret. rewrite R. reflexivity.
  - intros o n c' Hs R. rewrite (Hsome _ _ R).
    unfold server_url, env_get. rewrite Hs. reflexivity.
Qed.

Lemma repository_url_format_witness :
  fst (repository_url Fixture.ctx_user) = Ok (Some "https://github.com/user/repo") /\
  fst (repository_url Fixture.ctx_empty) = Ok None.
Proof.
  split.
  - apply (proj2 (proj2 (repository_url_format Fixture.ctx_user)) "user" "repo"
             (snd (repository Fixture.ctx_user))); reflexivity.
  - rewrite (proj1 (proj2 (repository_url_format Fixture.ctx_empty))
               (snd (repository Fixture.ctx_empty)) eq_refl).
    reflexivity.
Defined.

(** * Further properties of the accessor *)

(** ** Splitting and the repository variable *)

Lemma split_one_inv (sep : ascii) (s b : string) :
  split sep s = [b] -> s = b /\ count_char sep s = 0.
Proof.
  intros H. pose proof (split_length sep s) as L. rewrite H in L.
  cbn in L. injection L as L. symmetry in L.
  rewrite (split_no_sep _ _ L) in H. injection H as ->. now split.
Qed.

(** Two parts come from exactly one separator, and joining them around
    it gives the text back. *)
Lemma split_two_inv (sep : ascii) (s : string) :
  forall a b,
    split sep s = [a; b] ->
    s = a +:+ String sep b /\ count_char sep a = 0 /\ count_char sep b = 0.
Proof.
  induction s as [|c s IH]; intros a b; cbn [split]; [discriminate|].
  destruct (Ascii.eqb c sep) eqn:E.
  - intros [= <- H]. apply Ascii.eqb_eq in E. subst c.
    destruct (split_one_inv _ _ _ H) as [-> Hb].
    rewrite append_nil. split; [reflexivity|]. split; [reflexivity|exact Hb].
  - destruct (split sep s) as [|h t] eqn:Hs; [discriminate|].
    intros [= <- ->]. destruct (IH h b eq_refl) as (-> & Hh & Hb).
    rewrite append_cons. split; [reflexivity|]. split; [|exact Hb].
    cbn [count_char]. rewrite E, Hh. reflexivity.
Qed.

Section MoreRepository.
Context {rt : Runtime} {Event : Type}.
Implicit Types c : GithubContext rt Event.

(** X1. When [GITHUB_REPOSITORY] is set and not empty, the first read of
    [repository] is decided by that value alone: two instances that
    agree on it read the same, whatever their payloads are (an object or
    not); the read is never absent, and the only exception it can raise
    is [TypeError]. *)
Theorem repository_env_decides c1 c2 (v : string) :
  cached_repository c1 = None -> cached_repository c2 = None ->
  env c1 !! "GITHUB_REPOSITORY" = Some v ->
  env c2 !! "GITHUB_REPOSITORY" = Some v ->
  v <> "" ->
  fst (repository c1) = fst (repository c2) /\
  fst (repository c1) <> Ok None /\
  (forall x, fst (repository c1) = Raise x -> x = TypeError).
Proof.
  intros H1 H2 E1 E2 Hv.
  rewrite (repository_result c1 H1), (repository_result c2 H2).
  unfold repository_value. rewrite E1, E2.
  apply String.eqb_neq in Hv. rewrite Hv. cbn [negb].
  destruct (GitHubContextRepo.of_parts (split "/" v)) as [r|x] eqn:P.
  - repeat split; discriminate.
  - apply of_parts_raises in P. subst x.
    repeat split; [discriminate|]. now intros x [= <-].
Qed.

(** X2. When the first read of [repository] is decided by
    [GITHUB_REPOSITORY] and returns, owner and name are texts without a
    slash, and owner, a slash and name spell the variable's value. *)
Theorem repository_env_roundtrip c (v : string) (r : option GitHubContextRepo.t) :
  cached_repository c = None ->
  env c !! "GITHUB_REPOSITORY" = Some v ->
  v <> "" ->
  fst (repository c) = Ok r ->
  exists o n,
    r = Some (GitHubContextRepo.mk (JStr o) (JStr n)) /\
    v = o +:+ "/" +:+ n /\
    count_char "/" o = 0 /\ count_char "/" n = 0.
Proof.
  intros Hc He Hv. rewrite (repository_result c Hc). unfold repository_value.
  rewrite He. apply String.eqb_neq in Hv. rewrite Hv. cbn [negb].
  destruct (split "/" v) as [|o [|n [|z l]]] eqn:Hs; cbn; try discriminate.
  intros [= <-]. exists o, n.
  destruct (split_two_inv _ _ _ _ Hs) as (-> & Ho & Hn).
  repeat split; assumption.
Qed.

(** The body of [issue] on a payload that is not an object. *)
Lemma issue_func_non_object c :
  (forall d, _payload c <> JObj d) ->
  issue_func c = (Raise (AttributeError "get"), c).
Proof.
  intros H. unfold issue_func, bind, gets, lift.
  destruct (_payload c) as [| | | | | |d] eqn:P; try reflexivity.
  now destruct (H d).
Qed.

(** X3. A payload that is not an object (the file held an array, a text,
    a number or [null]) makes the first read of [issue] raise
    [AttributeError]; so does the first read of [repository] when
    [GITHUB_REPOSITORY] is unset or empty. Nothing is memoized. *)
Theorem non_object_payload_raises c :
  (forall d, _payload c <> JObj d) ->
  (cached_issue c = None ->
   fst (issue c) = Raise (AttributeError "get") /\
   cached_issue (snd (issue c)) = None) /\
  (cached_repository c = None ->
   env c !! "GITHUB_REPOSITORY" = None \/ env c !! "GITHUB_REPOSITORY" = Some "" ->
   fst (repository c) = Raise (AttributeError "get") /\
   cached_repository (snd (repository c)) = None).
Proof.
  intros H. split.
  - intros Hc. rewrite issue_eq, Hc.
    rewrite (issue_func_non_object (enter_issue c) H). now split.
  - intros Hc He.
    assert (repository_value (env c) (_payload c) = Raise (AttributeError "get")) as Hv.
    { unfold repository_value, repository_from_payload.
      destruct (_payload c) as [| | | | | |d] eqn:P;
        try (destruct He as [-> | ->]; reflexivity).
      now destruct (H d). }
    rewrite repository_eq, Hc, Hv. split; [reflexivity|exact Hc].
Qed.

(** X4. On an object payload, the first read of [issue] raises in two
    cases only: the candidate is not an object, and the exception is
    [AttributeError]; or the candidate is an object with a true number
    and [repository] raises, and the exception is that of [repository]. *)
Theorem issue_raises_iff c (d : list (string * json)) (x : exn) :
  cached_issue c = None ->
  _payload c = JObj d ->
  fst (issue c) = Raise x <->
  ((forall cd, candidate d <> JObj cd) /\ x = AttributeError "get") \/
  (exists cd,
      candidate d = JObj cd /\
      truthy (default JNull (dict_lookup "number" cd)) = true /\
      fst (repository c) = Raise x).
Proof.
  intros Hc Hp. rewrite (issue_result c d Hc Hp).
  destruct (candidate d) as [| | | | | |cd] eqn:C; cbn [py_get];
    try (split;
         [intros [= <-]; left; split; [discriminate|reflexivity]
         |intros [[_ ->]|(cd & ? & _)]; [reflexivity|discriminate]]).
  destruct (truthy (default JNull (dict_lookup "number" cd))) eqn:T; cbn [negb].
  - split.
    + intros H. right. exists cd. split; [reflexivity|]. split; [exact T|].
      destruct (fst (repository c)) as [[r|]|y]; try discriminate.
      injection H as ->. reflexivity.
    + intros [[H _]|(cd' & [= <-] & _ & ->)]; [now destruct (H cd)|reflexivity].
  - split; [discriminate|].
    intros [[H _]|(cd' & [= <-] & T' & _)]; [now destruct (H cd)|congruence].
Qed.

(** X5. When the candidate's number is missing or false, the first read
    of [issue] answers absent without reading [repository]: the
    derivation of the repository is not run and nothing is memoized for
    it, so a [GITHUB_REPOSITORY] or payload that would make [repository]
    raise does not make [issue] raise. *)
Theorem issue_short_circuit c (d cd : list (string * json)) :
  cached_issue c = None ->
  _payload c = JObj d ->
  candidate d = JObj cd ->
  truthy (default JNull (dict_lookup "number" cd)) = false ->
  fst (issue c) = Ok None /\
  cached_repository (snd (issue c)) = cached_repository c /\
  repository_calls (snd (issue c)) = repository_calls c.
Proof.
  intros Hc Hp Hcd Hn. rewrite issue_eq, Hc.
  rewrite (issue_func_eq (enter_issue c) d Hp), Hcd. cbn [py_get].
  rewrite Hn. cbn [negb fst snd]. repeat split.
Qed.

(** X6. A first read of [issue] that returns an issue has memoized the
    repository as well: from then on, whatever reads and outside changes
    follow, every read of [repository] returns one repository, and its
    owner and name are the owner and repo of that issue. *)
Theorem issue_memoizes_repository c (v : GitHubContextIssue.t)
    (c1 : GithubContext rt Event) :
  cached_issue c = None ->
  issue c = (Ok (Some v), c1) ->
  exists r,
    GitHubContextRepo.owner r = GitHubContextIssue.owner v /\
    GitHubContextRepo.name r = GitHubContextIssue.repo v /\
    forall l res,
      In (SawRepository res) (fst (run l c1)) -> res = Ok (Some r).
Proof.
  intros Hc. rewrite issue_eq, Hc.
  destruct (_payload c) as [| | | | | |d] eqn:P;
    try (rewrite (issue_func_non_object (enter_issue c));
         [discriminate|cbn [_payload enter_issue]; rewrite P; discriminate]).
  rewrite (issue_func_eq (enter_issue c) d P).
  destruct (py_get "number" (candidate d)) as [number|]; [|discriminate].
  destruct (negb (truthy number)); [discriminate|].
  destruct (repository (enter_issue c)) as [[[r|]|x] c0] eqn:R; try discriminate.
  intros [= <- <-]. exists r. repeat split.
  intros l res.
  apply (run_repository_memoized l (set_cached_issue _ c0) (Some r)).
  exact (repository_stores _ _ _ R).
Qed.
End MoreRepository.

Lemma repository_env_decides_witness :
  fst (repository Fixture.ctx_acme) = fst (repository Fixture.ctx_acme_array) /\
  fst (repository Fixture.ctx_acme) <> Ok None.
Proof.
  destruct (repository_env_decides Fixture.ctx_acme Fixture.ctx_acme_array
              "acme/widgets" eq_refl eq_refl eq_refl eq_refl) as (H1 & H2 & _).
  - discriminate.
  - split; [exact H1|exact H2].
Defined.

Lemma repository_env_roundtrip_witness :
  exists o n,
    Some (GitHubContextRepo.mk (JStr "acme") (JStr "widgets"))
      = Some (GitHubContextRepo.mk (JStr o) (JStr n)) /\
    "acme/widgets" = o +:+ "/" +:+ n /\
    count_char "/" o = 0 /\ count_char "/" n = 0.
Proof.
  apply (repository_env_roundtrip Fixture.ctx_acme "acme/widgets" _ eq_refl eq_refl).
  - discriminate.
  - reflexivity.
Defined.

Lemma non_object_payload_raises_witness :
  fst (issue Fixture.ctx_array) = Raise (AttributeError "get") /\
  fst (repository Fixture.ctx_array) = Raise (AttributeError "get").
Proof.
  assert (forall d, _payload Fixture.ctx_array <> JObj d) as H by discriminate.
  split.
  - apply (proj1 (non_object_payload_raises Fixture.ctx_array H) eq_refl).
  - apply (proj2 (non_object_payload_raises Fixture.ctx_array H) eq_refl).
    left. reflexivity.
Defined.

Lemma issue_raises_iff_witness :
  fst (issue Fixture.ctx_issue_scalar) = Raise (AttributeError "get") /\
  fst (issue Fixture.ctx_no_owner) = Raise (KeyError "owner").
Proof.
  split.
  - apply (proj2 (issue_raises_iff Fixture.ctx_issue_scalar
                    [("issue", JInt 7)] (AttributeError "get") eq_refl eq_refl)).
    left. split; [discriminate|reflexivity].
  - eapply (proj2 (issue_raises_iff Fixture.ctx_no_owner _ (KeyError "owner")
                     eq_refl eq_refl)).
    right. eexists. split; [reflexivity|]. split; reflexivity.
Defined.

Lemma issue_short_circuit_witness :
  fst (repository Fixture.ctx_no_slash) = Raise TypeError /\
  fst (issue Fixture.ctx_no_slash) = Ok None /\
  repository_calls (snd (issue Fixture.ctx_no_slash)) = 0.
Proof.
  split; [reflexivity|].
  destruct (issue_short_circuit Fixture.ctx_no_slash [] []
              eq_refl eq_refl eq_refl eq_refl) as (H1 & _ & H2).
  split; [exact H1|exact H2].
Defined.

Lemma issue_memoizes_repository_witness :
  exists r,
    GitHubContextRepo.owner r = JStr "user" /\
    GitHubContextRepo.name r = JStr "repo" /\
    forall l res,
      In (SawRepository res) (fst (run l (snd (issue Fixture.ctx_empty_issue)))) ->
      res = Ok (Some r).
Proof.
  apply (issue_memoizes_repository Fixture.ctx_empty_issue
           (GitHubContextIssue.mk (JStr "user") (JStr "repo") (JStr "9"))
           (snd (issue Fixture.ctx_empty_issue)) eq_refl eq_refl).
Defined.

(** ** The repository address, further *)

Section MoreUrl.
Context {rt : Runtime} {Event : Type}.
Implicit Types c : GithubContext rt Event.

(** [repository_url], by what its first read of [repository] gives. *)
Lemma repository_url_eq c :
  repository_url c =
    match repository c with
    | (Ok (Some r), c') =>
        (Ok (Some (server_url c' +:+ "/"
                   +:+ fstring_field rt (GitHubContextRepo.owner r) +:+ "/"
                   +:+ fstring_field rt (GitHubContextRepo.name r))), c')
    | (Ok None, c') => (Ok None, c')
    | (Raise x, c') => (Raise x, c')
    end.
Proof.
  unfold repository_url, bind, gets, lift, ret.
  destruct (repository c) as [[[r|]|x] c'] eqn:R; try reflexivity.
  cbn [is_Some_b].
  rewrite (repository_hit c' _ (repository_stores _ _ _ R)). cbn [repo_owner].
  rewrite (repository_hit c' _ (repository_stores _ _ _ R)). reflexivity.
Qed.

(** X7. [repository_url] raises exactly when [repository] does, and then
    the same exception: formatting adds no failure of its own, and the
    attributes of an absent repository are never read. *)
Theorem repository_url_raises_iff c (x : exn) :
  fst (repository_url c) = Raise x <-> fst (repository c) = Raise x.
Proof.
  rewrite repository_url_eq.
  destruct (repository c) as [[[r|]|y] c']; cbn [fst];
    split; intros H; try discriminate; injection H as ->; reflexivity.
Qed.

(** X8. When [GITHUB_REPOSITORY] holds exactly one slash, the first read
    of [repository_url] is the server address, a slash, and the value of
    the variable as it stands. *)
Theorem repository_url_env c (v : string) :
  cached_repository c = None ->
  env c !! "GITHUB_REPOSITORY" = Some v ->
  count_char "/" v = 1 ->
  fst (repository_url c) = Ok (Some (server_url c +:+ "/" +:+ v)).
Proof.
  intros Hc He Hn.
  pose proof (split_length "/" v) as L. rewrite Hn in L.
  destruct (split "/" v) as [|o [|n [|z l]]] eqn:Hs; try discriminate.
  destruct (split_two_inv _ _ _ _ Hs) as (Hv & _ & _).
  assert (String.eqb v "" = false) as Hne.
  { apply String.eqb_neq. intros ->. discriminate. }
  rewrite repository_url_eq, repository_eq, Hc.
  unfold repository_value. rewrite He, Hne, Hs. cbn.
  unfold server_url, env_get. cbn [env]. rewrite Hv. reflexivity.
Qed.

(** X9. [repository_url] itself is not memoized: once [repository] has
    returned a repository, a later change of [GITHUB_SERVER_URL] shows in
    the address, while owner and name stay those of the memoized
    repository whatever else is changed in the environment and the
    payload. *)
Theorem repository_url_not_memoized c (r : GitHubContextRepo.t)
    (c1 : GithubContext rt Event) :
  repository c = (Ok (Some r), c1) ->
  forall (e : gmap string string) (payload : json),
    fst (repository_url (mutate e payload c1))
      = Ok (Some (default "https://github.com" (e !! "GITHUB_SERVER_URL")
                  +:+ "/" +:+ fstring_field rt (GitHubContextRepo.owner r)
                  +:+ "/" +:+ fstring_field rt (GitHubContextRepo.name r))).
Proof.
  intros R e payload.
  rewrite repository_url_eq.
  rewrite (repository_hit (mutate e payload c1) (Some r)).
  - reflexivity.
  - cbn [cached_repository mutate]. exact (repository_stores _ _ _ R).
Qed.
End MoreUrl.

Lemma repository_url_env_witness :
  fst (repository_url Fixture.ctx_acme)
    = Ok (Some "https://github.com/acme/widgets").
Proof.
  apply (repository_url_env Fixture.ctx_acme "acme/widgets" eq_refl eq_refl eq_refl).
Defined.

Lemma repository_url_not_memoized_witness :
  fst (repository_url
         (mutate Fixture.env_server (JObj []) (snd (repository Fixture.ctx_user))))
    = Ok (Some "https://ghe.example/user/repo").
Proof.
  apply (repository_url_not_memoized Fixture.ctx_user
           (GitHubContextRepo.mk (JStr "user") (JStr "repo"))
           (snd (repository Fixture.ctx_user)) eq_refl
           Fixture.env_server (JObj [])).
Defined.

(** ** Construction, further *)

Section MoreConstruction.
Context (rt : Runtime).


(** X11. The [environ] argument of [from_file] has no part in finding
    and loading the file: with the same path argument, two calls with
    different [environ] raise the same exception or both return, and then
    with the same event value, raw payload and [event_path]; the
    argument only becomes the environment of the accessor. *)
Theorem from_file_ignores_environ
    (e1 e2 : option (gmap string string)) (a : option (path_arg rt)) :
  (forall x, from_file rt e1 a = Raise x <-> from_file rt e2 a = Raise x) /\
  (forall c1 c2,
      from_file rt e1 a = Ok c1 -> from_file rt e2 a = Ok c2 ->
      event c1 = event c2 /\ _payload c1 = _payload c2 /\
      event_path c1 = event_path c2 /\
      env c1 = env_or_os_environ rt e1 /\ env c2 = env_or_os_environ rt e2).
Proof.
  rewrite !from_file_eq.
  destruct (is_file rt (resolve_event_path rt a)).
  - destruct (read_text rt (resolve_event_path rt a)) as [text|e].
    + destruct (json_loads rt text) as [j|].
      * split; [intros x; split; discriminate|].
        intros c1 c2 [= <-] [= <-]. repeat split.
      * split; [intros x; split; intros H; exact H|]. discriminate.
    + split; [intros x; split; intros H; exact H|]. discriminate.
  - split; [intros x; split; intros H; exact H|]. discriminate.
Qed.
End MoreConstruction.


Lemma from_file_ignores_environ_witness :
  from_file Fixture.rt (Some Fixture.env_missing) None
    = Ok (fresh Fixture.rt Fixture.env_missing Fixture.event_value
            (Some "event.json") Fixture.event_value) /\
  (event (fresh Fixture.rt Fixture.env_missing Fixture.event_value
            (Some "event.json") Fixture.event_value)
   = event (fresh Fixture.rt (os_environ Fixture.rt) Fixture.event_value
              (Some "event.json") Fixture.event_value)).
Proof.
  split; [reflexivity|].
  apply (proj2 (from_file_ignores_environ Fixture.rt
                  (Some Fixture.env_missing) None None)); reflexivity.
Defined.

(** ** The working directory *)

(** X12. With [GITHUB_WORKSPACE] set and not empty, [workspace] is the
    path of that value and the working directory is not asked for, so
    the accessor returns even where asking would raise; with the
    variable unset or empty, [workspace] is whatever asking for the
    working directory gives at that call. *)
Theorem workspace_fallback {rt : Runtime} {Event : Type}
    (c : GithubContext rt Event) (getcwd : result (path rt)) :
  (forall v,
      env c !! "GITHUB_WORKSPACE" = Some v -> v <> "" ->
      workspace getcwd c = Ok (Path rt v)) /\
  (env c !! "GITHUB_WORKSPACE" = None \/ env c !! "GITHUB_WORKSPACE" = Some "" ->
   workspace getcwd c = getcwd).
Proof.
  unfold workspace. split.
  - intros v -> Hv. apply String.eqb_neq in Hv. rewrite Hv. reflexivity.
  - intros [-> | ->]; reflexivity.
Qed.

Lemma workspace_fallback_witness :
  workspace (Raise FileNotFoundError)
    (Fixture.ctx Fixture.env_workspace (JObj [])) = Ok "/work" /\
  workspace (rt := Fixture.rt) (Ok "/home/runner") Fixture.ctx_empty
    = Ok "/home/runner".
Proof.
  split.
  - apply (proj1 (workspace_fallback (Fixture.ctx Fixture.env_workspace (JObj []))
                    (Raise FileNotFoundError)) "/work"); [reflexivity|discriminate].
  - apply (proj2 (workspace_fallback (rt := Fixture.rt) Fixture.ctx_empty
                    (Ok "/home/runner"))).
    left. reflexivity.
Defined.

(** ** What the reads depend on, and what they leave alone *)

Section Inputs.
Context {rt : Runtime}.

(** The first components of [repository] and [issue] are functions of
    the environment, the payload and the two memo entries. *)
Lemma repository_determined {E1 E2 : Type}
    (c1 : GithubContext rt E1) (c2 : GithubContext rt E2) :
  env c1 = env c2 -> _payload c1 = _payload c2 ->
  cached_repository c1 = cached_repository c2 ->
  fst (repository c1) = fst (repository c2).
Proof.
  intros He Hp Hc. rewrite !repository_eq, He, Hp, Hc.
  destruct (cached_repository c2); [reflexivity|].
  destruct (repository_value _ _); reflexivity.
Qed.

Lemma issue_determined {E1 E2 : Type}
    (c1 : GithubContext rt E1) (c2 : GithubContext rt E2) :
  env c1 = env c2 -> _payload c1 = _payload c2 ->
  cached_repository c1 = cached_repository c2 ->
  cached_issue c1 = cached_issue c2 ->
  fst (issue c1) = fst (issue c2).
Proof.
  intros He Hp Hr Hi. rewrite !issue_eq, Hi.
  destruct (cached_issue c2); [reflexivity|].
  destruct (_payload c2) as [| | | | | |d] eqn:P;
    try (rewrite !issue_func_non_object;
         [reflexivity
         |cbn [_payload enter_issue]; rewrite ?Hp, ?P; discriminate ..]).
  rewrite (issue_func_eq (enter_issue c1) d Hp).
  rewrite (issue_func_eq (enter_issue c2) d P).
  destruct (py_get "number" (candidate d)) as [number|]; [|reflexivity].
  destruct (negb (truthy number)); [reflexivity|].
  pose proof (repository_determined (enter_issue c1) (enter_issue c2)
                He (eq_trans Hp (eq_sym P)) Hr) as H.
  destruct (repository (enter_issue c1)) as [[[r1|]|x1] c1'];
    destruct (repository (enter_issue c2)) as [[[r2|]|x2] c2'];
    cbn [fst] in H; try discriminate; try reflexivity;
    injection H as ->; reflexivity.
Qed.

(** X13. The derivations never look at the event value the caller gave,
    nor at [event_path]: two instances with nothing memoized that hold
    the same environment and the same raw payload read the same
    [repository] and the same [issue], whatever their events (even of
    different types) and paths are. *)
Theorem event_never_consulted {E1 E2 : Type}
    (c1 : GithubContext rt E1) (c2 : GithubContext rt E2) :
  env c1 = env c2 -> _payload c1 = _payload c2 ->
  cached_repository c1 = None -> cached_repository c2 = None ->
  cached_issue c1 = None -> cached_issue c2 = None ->
  fst (repository c1) = fst (repository c2) /\
  fst (issue c1) = fst (issue c2).
Proof.
  intros He Hp R1 R2 I1 I2. split.
  - apply repository_determined; congruence.
  - apply issue_determined; congruence.
Qed.
End Inputs.

Section Frame.
Context {rt : Runtime} {Event : Type}.
Implicit Types c : GithubContext rt Event.

(** A read of [issue] changes no attribute the caller set. *)
Lemma issue_frame c r c' :
  issue c = (r, c') ->
  env c' = env c /\ _payload c' = _payload c /\ event c' = event c /\
  _event_path c' = _event_path c.
Proof.
  rewrite issue_eq. destruct (cached_issue c); [intros [= _ <-]; repeat split|].
  destruct (issue_func (enter_issue c)) as [r0 c0] eqn:F.
  assert (env c0 = env c /\ _payload c0 = _payload c /\ event c0 = event c /\
          _event_path c0 = _event_path c) as H.
  { destruct (issue_func_state _ _ _ F) as [->| ->]; [repeat split|].
    destruct (repository (enter_issue c)) as [rr cr] eqn:R.
    destruct (repository_frame _ _ _ R) as (? & ? & ? & ? & _).
    cbn [snd]. repeat split; assumption. }
  destruct r0; intros [= _ <-]; exact H.
Qed.

(** X14. Reading never changes what the accessor was given: after any
    sequence of reads of [repository] and [issue], the environment, the
    raw payload, the event value and the explicit path are what they
    were. *)
Theorem reads_keep_inputs (l : list access) :
  forall c,
    (forall e payload, ~ In (Mutate e payload) l) ->
    env (snd (run l c)) = env c /\
    _payload (snd (run l c)) = _payload c /\
    event (snd (run l c)) = event c /\
    _event_path (snd (run l c)) = _event_path c.
Proof.
  induction l as [|a l IH]; intros c Hl; [repeat split|].
  cbn [run]. destruct (step a c) as [o c1] eqn:S.
  assert (env c1 = env c /\ _payload c1 = _payload c /\ event c1 = event c /\
          _event_path c1 = _event_path c) as (H1 & H2 & H3 & H4).
  { destruct a as [| |e payload]; cbn [step] in S.
    - destruct (repository c) as [r cr] eqn:R. injection S as _ <-.
      destruct (repository_frame _ _ _ R) as (? & ? & ? & ? & _).
      repeat split; assumption.
    - destruct (issue c) as [r ci] eqn:I. injection S as _ <-.
      exact (issue_frame _ _ _ I).
    - destruct (Hl e payload). now left. }
  destruct (run l c1) as [os c2] eqn:R. cbn [snd].
  assert (forall e payload, ~ In (Mutate e payload) l) as Hl'.
  { intros e payload Hin. apply (Hl e payload). now right. }
  destruct (IH c1 Hl') as (G1 & G2 & G3 & G4). rewrite R in G1, G2, G3, G4.
  cbn [snd] in *. repeat split; congruence.
Qed.

(** The body of [issue] raises in the instance it started in, or where
    its read of [repository] raised. *)
Lemma issue_func_raise_state c x c' :
  issue_func c = (Raise x, c') -> c' = c \/ repository c = (Raise x, c').
Proof.
  destruct (_payload c) as [| | | | | |d] eqn:P;
    try (rewrite issue_func_non_object;
         [intros [= _ <-]; now left|rewrite P; discriminate]).
  rewrite (issue_func_eq c d P).
  destruct (py_get "number" (candidate d)) as [number|]; [|intros [= _ <-]; now left].
  destruct (negb (truthy number)); [discriminate|].
  destruct (repository c) as [[[r|]|y] c0]; try discriminate.
  intros [= <- <-]. now right.
Qed.

(** A read that raises memoizes nothing. *)
Lemma repository_raise_keeps_memo c x c' :
  repository c = (Raise x, c') ->
  cached_repository c' = cached_repository c.
Proof.
  rewrite repository_eq. destruct (cached_repository c) eqn:Hc; [discriminate|].
  destruct (repository_value _ _); [discriminate|].
  intros [= _ <-]. exact Hc.
Qed.

Lemma issue_raise_keeps_memo c x c' :
  issue c = (Raise x, c') ->
  cached_repository c' = cached_repository c /\
  cached_issue c' = cached_issue c.
Proof.
  rewrite issue_eq. destruct (cached_issue c) eqn:Hc; [discriminate|].
  destruct (issue_func (enter_issue c)) as [[w|y] c0] eqn:F; [discriminate|].
  intros [= _ <-].
  destruct (issue_func_raise_state _ _ _ F) as [->|R]; [now split|].
  split.
  - exact (repository_raise_keeps_memo _ _ _ R).
  - destruct (repository_frame _ _ _ R) as (_ & _ & _ & _ & -> & _). exact Hc.
Qed.

(** X15. With no outside change in between, a second read repeats the
    first, whether the first returned or raised: a derivation that
    raised runs again on the same environment and payload and raises the
    same exception. *)
Theorem read_again_same c :
  fst (repository (snd (repository c))) = fst (repository c) /\
  fst (issue (snd (issue c))) = fst (issue c).
Proof.
  split.
  - destruct (repository c) as [[v|x] c'] eqn:R; cbn [fst snd].
    + now rewrite (repository_hit c' v (repository_stores _ _ _ R)).
    + transitivity (fst (repository c)); [|now rewrite R].
      destruct (repository_frame _ _ _ R) as (He & Hp & _).
      apply repository_determined; try assumption.
      exact (repository_raise_keeps_memo _ _ _ R).
  - destruct (issue c) as [[v|x] c'] eqn:I; cbn [fst snd].
    + now rewrite (issue_hit c' v (issue_stores _ _ _ I)).
    + transitivity (fst (issue c)); [|now rewrite I].
      destruct (issue_frame _ _ _ I) as (He & Hp & _).
      destruct (issue_raise_keeps_memo _ _ _ I) as [Hr Hi].
      apply issue_determined; assumption.
Qed.
End Frame.

Lemma event_never_consulted_witness :
  fst (repository (fresh Fixture.rt Fixture.env_user Fixture.payload_other None
                     (JObj Fixture.payload_empty_issue)))
    = fst (repository Fixture.ctx_empty_issue) /\
  fst (issue (fresh Fixture.rt Fixture.env_user Fixture.payload_other None
                (JObj Fixture.payload_empty_issue)))
    = fst (issue Fixture.ctx_empty_issue).
Proof.
  apply (event_never_consulted
           (fresh Fixture.rt Fixture.env_user Fixture.payload_other None
              (JObj Fixture.payload_empty_issue))
           Fixture.ctx_empty_issue); reflexivity.
Defined.

Lemma reads_keep_inputs_witness :
  env (snd (run [ReadIssue; ReadRepository; ReadIssue] Fixture.ctx_empty_issue))
    = Fixture.env_user /\
  _payload (snd (run [ReadIssue; ReadRepository; ReadIssue] Fixture.ctx_empty_issue))
    = JObj Fixture.payload_empty_issue.
Proof.
  destruct (reads_keep_inputs [ReadIssue; ReadRepository; ReadIssue]
              Fixture.ctx_empty_issue) as (H1 & H2 & _).
  - intros e payload [H|[H|[H|[]]]]; discriminate H.
  - split; [exact H1|exact H2].
Defined.
